(** * ella / newman: admin date filter, author stamping and the Selenium
    test helper

  A shallow embedding of

  - [ella/newman/admin.py]: [DevMessageAdmin.save_model] and the
    registered date-field filter [customized_date_field_filter];
  - [tests/example_project/tests/test_newman/helpers.py]:
    [FormAssertSpec], [DateTimeAssert] and the [NewmanTestCase] helper
    methods that drive a Selenium remote-control client.

  The code is Python 2 (it uses [xrange], [ugettext] and implicit relative
  imports).  Python dictionaries are finite maps ([gmap]); text is a
  [string]: a Python [unicode] object is represented by its UTF-8 bytes,
  so that [.encode('utf-8')] is the identity on the representation, and
  concatenation, [join] and [%s] formatting act on the bytes as they act
  on the characters.  The standard [datetime] module is modelled by its
  documented semantics (proleptic Gregorian calendar, microsecond
  resolution, naive values). *)

From Stdlib Require Import ZArith Lia Ascii.
From stdpp Require Import base gmap strings list fin_maps.

Local Open Scope Z_scope.

(** ** Python values shared by both files *)

Module Py.

(** Exceptions.  The classes the two files can raise themselves are kept
    apart; any other class carries its name. *)
Inductive exn : Type :=
| AssertionError (msg : string)
| ValueError (msg : string)
| OverflowError (msg : string)
| OtherError (cls msg : string).

(** The outcome of an expression that may raise. *)
Inductive result (A : Type) : Type :=
| Ok (a : A)
| Raise (e : exn).
Arguments Ok {A} a.
Arguments Raise {A} e.

#[global] Instance result_ret : MRet result := λ A a, Ok a.

#[global] Instance result_bind : MBind result := λ A B k r,
  match r with
  | Ok a => k a
  | Raise e => Raise e
  end.

#[global] Instance result_fmap : FMap result := λ A B f r,
  match r with
  | Ok a => Ok (f a)
  | Raise e => Raise e
  end.

(** [str(n)] for an [int]. *)
Definition digit_char (d : Z) : ascii :=
  ascii_of_N (48 + Z.to_N d).

Fixpoint digits_from (fuel : nat) (n : Z) (acc : string) : string :=
  match fuel with
  | O => acc
  | S fuel' =>
      let acc' := String (digit_char (n mod 10)) acc in
      if n / 10 =? 0 then acc' else digits_from fuel' (n / 10) acc'
  end.

Definition str_nonneg (n : Z) : string :=
  digits_from (S (Z.to_nat (Z.log2 n))) n "".

Definition str_int (n : Z) : string :=
  if n <? 0 then "-" +:+ str_nonneg (- n) else str_nonneg n.

(** [%02d] and [%04d]. *)
Definition pad2 (n : Z) : string :=
  if n <? 10 then "0" +:+ str_int n else str_int n.

Definition pad4 (n : Z) : string :=
  if n <? 10 then "000" +:+ str_int n
  else if n <? 100 then "00" +:+ str_int n
  else if n <? 1000 then "0" +:+ str_int n
  else str_int n.

(** [s.startswith(p)] *)
Fixpoint startswith (s p : string) : bool :=
  match p, s with
  | EmptyString, _ => true
  | String _ _, EmptyString => false
  | String b p', String a s' =>
      if Ascii.eqb a b then startswith s' p' else false
  end.

(** [sep.join(l)] *)
Fixpoint join (sep : string) (l : list string) : string :=
  match l with
  | [] => ""
  | [x] => x
  | x :: rest => x +:+ sep +:+ join sep rest
  end.

(** Truthiness of a string, as tested by [and] / [or]. *)
Definition str_truthy (s : string) : bool :=
  match s with
  | EmptyString => false
  | String _ _ => true
  end.

(** The idiom [c and a or b]. *)
Definition and_or (c : bool) (a b : string) : string :=
  if c && str_truthy a then a else b.

End Py.

Import Py.

(** ** The [datetime] module *)

Module Datetime.

Record date : Type := Date { year : Z; month : Z; day : Z }.

Record datetime : Type := DateTime {
  dt_date : date;
  hour : Z;
  minute : Z;
  second : Z;
  microsecond : Z
}.

(** A [timedelta] is normalised by Python to (days, seconds,
    microseconds); comparisons, truth value and arithmetic only depend on
    the total number of microseconds, which is what is kept here. *)
Definition timedelta : Type := Z.

Definition us_per_second : Z := 1000000.
Definition us_per_minute : Z := 60 * us_per_second.
Definition us_per_hour : Z := 60 * us_per_minute.
Definition us_per_day : Z := 24 * us_per_hour.

Definition timedelta_days (n : Z) : timedelta := n * us_per_day.
Definition timedelta_minutes (n : Z) : timedelta := n * us_per_minute.
Definition timedelta_seconds (n : Z) : timedelta := n * us_per_second.

(** [td.days] *)
Definition td_days (td : timedelta) : Z := td / us_per_day.

(** [bool(td)]: only [timedelta(0)] is false. *)
Definition td_truthy (td : timedelta) : bool := negb (td =? 0).

Definition is_leap (y : Z) : bool :=
  (y mod 4 =? 0) && (negb (y mod 100 =? 0) || (y mod 400 =? 0)).

Definition leap_days (y : Z) : Z := if is_leap y then 1 else 0.

Definition days_in_month (y m : Z) : Z :=
  match m with
  | 1 => 31 | 2 => if is_leap y then 29 else 28 | 3 => 31 | 4 => 30
  | 5 => 31 | 6 => 30 | 7 => 31 | 8 => 31 | 9 => 30 | 10 => 31
  | 11 => 30 | 12 => 31 | _ => 0
  end.

Definition days_before_year (y : Z) : Z :=
  let p := y - 1 in p * 365 + p / 4 - p / 100 + p / 400.

Definition days_before_month (y m : Z) : Z :=
  match m with
  | 1 => 0 | 2 => 31 | 3 => 59 | 4 => 90 | 5 => 120 | 6 => 151
  | 7 => 181 | 8 => 212 | 9 => 243 | 10 => 273 | 11 => 304 | 12 => 334
  | _ => 0
  end + (if (2 <? m) && is_leap y then 1 else 0).

(** [d.toordinal()]: 0001-01-01 is day 1. *)
Definition toordinal (d : date) : Z :=
  days_before_year (year d) + days_before_month (year d) (month d) + day d.

Definition MINYEAR : Z := 1.
Definition MAXYEAR : Z := 9999.

Definition valid_date (d : date) : bool :=
  (MINYEAR <=? year d) && (year d <=? MAXYEAR)
  && (1 <=? month d) && (month d <=? 12)
  && (1 <=? day d) && (day d <=? days_in_month (year d) (month d)).

Definition valid_datetime (t : datetime) : bool :=
  valid_date (dt_date t)
  && (0 <=? hour t) && (hour t <? 24)
  && (0 <=? minute t) && (minute t <? 60)
  && (0 <=? second t) && (second t <? 60)
  && (0 <=? microsecond t) && (microsecond t <? 1000000).

Definition prev_day (d : date) : date :=
  if 1 <? day d then Date (year d) (month d) (day d - 1)
  else if 1 <? month d
       then Date (year d) (month d - 1) (days_in_month (year d) (month d - 1))
       else Date (year d - 1) 12 31.

Definition next_day (d : date) : date :=
  if day d <? days_in_month (year d) (month d)
  then Date (year d) (month d) (day d + 1)
  else if month d <? 12 then Date (year d) (month d + 1) 1
       else Date (year d + 1) 1 1.

(** The date [n] days after [d] ([n] may be negative). *)
Definition shift_days (d : date) (n : Z) : date :=
  if 0 <=? n then Nat.iter (Z.to_nat n) next_day d
  else Nat.iter (Z.to_nat (- n)) prev_day d.

Definition max_ordinal : Z := 3652059.

(** [d - td] for a date and a timedelta: only [td.days] counts, and a
    result outside [date.min .. date.max] is an [OverflowError]. *)
Definition date_sub (d : date) (td : timedelta) : result date :=
  let n := toordinal d - td_days td in
  if (1 <=? n) && (n <=? max_ordinal)
  then Ok (shift_days d (- td_days td))
  else Raise (OverflowError "date value out of range").

(** [d.strftime(fmt)] for a date, with the directives the code uses.
    The hour, minute and second of a date are zero.  Python 2 refuses
    years before 1900. *)
Fixpoint strftime_go (d : date) (fmt : string) : string :=
  match fmt with
  | EmptyString => ""
  | String "%" (String c rest) =>
      (if Ascii.eqb c "Y"%char then pad4 (year d)
       else if Ascii.eqb c "m"%char then pad2 (month d)
       else if Ascii.eqb c "d"%char then pad2 (day d)
       else if Ascii.eqb c "H"%char then "00"
       else if Ascii.eqb c "M"%char then "00"
       else if Ascii.eqb c "S"%char then "00"
       else if Ascii.eqb c "%"%char then "%"
       else String "%" (String c "")) +:+ strftime_go d rest
  | String c rest => String c (strftime_go d rest)
  end.

(** [d.isoformat()], which is what the format [%Y-%m-%d] produces. *)
Definition isoformat (d : date) : string :=
  pad4 (year d) +:+ "-" +:+ pad2 (month d) +:+ "-" +:+ pad2 (day d).

Definition date_strftime (d : date) (fmt : string) : result string :=
  if year d <? 1900
  then Raise (ValueError "year is before 1900; the datetime strftime() methods require year >= 1900")
  else Ok (strftime_go d fmt).

(** Microseconds from 0001-01-01 00:00:00 to a naive datetime. *)
Definition to_us (t : datetime) : Z :=
  (toordinal (dt_date t) - 1) * us_per_day
  + hour t * us_per_hour + minute t * us_per_minute
  + second t * us_per_second + microsecond t.

(** [a > b] on naive datetimes: the fields are compared in order. *)
Definition lex_gt (a b : list Z) : bool :=
  (fix go (a b : list Z) : bool :=
     match a, b with
     | x :: a', y :: b' =>
         if y <? x then true else if x <? y then false else go a' b'
     | _, _ => false
     end) a b.

Definition dt_fields (t : datetime) : list Z :=
  [year (dt_date t); month (dt_date t); day (dt_date t);
   hour t; minute t; second t; microsecond t].

Definition datetime_gt (a b : datetime) : bool :=
  lex_gt (dt_fields a) (dt_fields b).

(** [a - b] on naive datetimes. *)
Definition datetime_sub (a b : datetime) : timedelta := to_us a - to_us b.

(** [a <= b] on timedeltas. *)
Definition td_le (a b : timedelta) : bool := a <=? b.

(** [str(t)]: ISO format with a space, microseconds only when not zero. *)
Definition pad6 (n : Z) : string :=
  if n <? 10 then "00000" +:+ str_int n
  else if n <? 100 then "0000" +:+ str_int n
  else if n <? 1000 then "000" +:+ str_int n
  else if n <? 10000 then "00" +:+ str_int n
  else if n <? 100000 then "0" +:+ str_int n
  else str_int n.

Definition datetime_str (t : datetime) : string :=
  pad4 (year (dt_date t)) +:+ "-" +:+ pad2 (month (dt_date t)) +:+ "-"
  +:+ pad2 (day (dt_date t)) +:+ " " +:+ pad2 (hour t) +:+ ":"
  +:+ pad2 (minute t) +:+ ":" +:+ pad2 (second t)
  +:+ (if microsecond t =? 0 then "" else "." +:+ pad6 (microsecond t)).

End Datetime.

Import Datetime.

(** ** [ella/newman/admin.py] *)

Module Admin.

(** [dict(pairs)] and a dict display [{k1: v1, k2: v2}]: the items are
    inserted from left to right, a later item replaces an earlier one with
    the same key. *)
Definition dict (items : list (string * string)) : gmap string string :=
  foldl (λ m kv, <[kv.1 := kv.2]> m) ∅ items.

(** The class of a model field.  [models.DateTimeField] is a subclass of
    [models.DateField]. *)
Inductive Field : Type := DateField | DateTimeField | OtherField.

(** [isinstance(f, models.DateField)], the predicate the handler is
    registered with. *)
Definition isinstance_DateField (f : Field) : bool :=
  match f with
  | DateField | DateTimeField => true
  | OtherField => false
  end.

Definition isinstance_DateTimeField (f : Field) : bool :=
  match f with
  | DateTimeField => true
  | DateField | OtherField => false
  end.

(** The attributes of a filter spec that the handler reads or assigns.
    The class itself lives in [ella.newman.filterspecs]. *)
Record FilterSpec : Type := {
  params : gmap string string;
  field_path : string;
  field : Field;
  field_generic : string;
  date_params : gmap string string;
  links : list (string * gmap string string)
}.

(** Modelled from the spec: the [DevMessage] model is declared in
    [ella.newman.models], which is not among the files; a record is new
    (its [id] is [None]) until its first save, and carries the positive
    primary key the database assigned to it afterwards. *)
Record DevMessage (User : Type) : Type := {
  id : option positive;
  author : option User;
  title : string;
  slug : string
}.
Arguments id {User} _.
Arguments author {User} _.
Arguments title {User} _.
Arguments slug {User} _.

(** Truth value of [obj.id]: [None] is false, a positive key is true. *)
Definition id_truthy (i : option positive) : bool :=
  match i with
  | None => false
  | Some _ => true
  end.

Record Request (User : Type) : Type := { user : User }.
Arguments user {User} _.

Section DevMessageAdmin.

(** [obj.save()] is Django's [Model.save]: it acts on the database and may
    assign the key of the object. *)
Context {User DB : Type}.
Variable Model_save : DevMessage User → DB → DevMessage User * DB.

(** The object as it is when [obj.save()] is called. *)
Definition stamp_author (request : Request User) (obj : DevMessage User)
  : DevMessage User :=
  if negb (id_truthy (id obj))
  then {| id := id obj; author := Some (user request);
          title := title obj; slug := slug obj |}
  else obj.

Definition save_model (request : Request User) (obj : DevMessage User)
    (db : DB) : DevMessage User * DB :=
  Model_save (stamp_author request obj) db.

End DevMessageAdmin.

Section DateFilter.

(** [_] is [ugettext]: the translation of a label in the active language. *)
Variable ugettext : string → string.

(** [today] is the value of [datetime.date.today()]. *)
Definition customized_date_field_filter (today : date) (fspec : FilterSpec)
  : result (bool * FilterSpec) :=
  let fp := field_path fspec in
  let generic := fp +:+ "__" in
  let dparams :=
    dict (filter (λ kv, startswith kv.1 generic = true)
            (map_to_list (params fspec))) in
  one_week_ago ← date_sub today (timedelta_days 7);
  today_str ←
    (if isinstance_DateTimeField (field fspec)
     then a ← date_strftime today "%Y-%m-%d 23:59:59";
          if str_truthy a then Ok a else date_strftime today "%Y-%m-%d"
     else date_strftime today "%Y-%m-%d");
  week_str ← date_strftime one_week_ago "%Y-%m-%d";
  Ok (true,
      {| params := params fspec;
         field_path := fp;
         field := field fspec;
         field_generic := generic;
         date_params := dparams;
         links :=
           [ (ugettext "Any date", dict []);
             (ugettext "Today",
              dict [ (fp +:+ "__year", str_int (year today));
                     (fp +:+ "__month", str_int (month today));
                     (fp +:+ "__day", str_int (day today)) ]);
             (ugettext "Past 7 days",
              dict [ (fp +:+ "__gte", week_str);
                     (fp +:+ "__lte", today_str) ]);
             (ugettext "This month",
              dict [ (fp +:+ "__year", str_int (year today));
                     (fp +:+ "__month", str_int (month today)) ]);
             (ugettext "This year",
              dict [ (fp +:+ "__year", str_int (year today)) ]) ] |}).

End DateFilter.

(** The clock readings for which the handler runs to its end: a date of
    the calendar from 1900-01-08 on, so that the date a week earlier still
    has a year that [strftime] accepts. *)
Definition clock_ok (today : date) : bool :=
  valid_date today && (toordinal (Date 1900 1 8) <=? toordinal today).

End Admin.

(** ** [tests/example_project/tests/test_newman/helpers.py] *)

Module Helpers.

(** The Python values that occur as expected and retrieved values. *)
Inductive pyval : Type :=
| PStr (s : string)
| PDateTime (t : datetime)
| PList (l : list string).

#[global] Instance date_eq_dec : EqDecision date.
Proof. solve_decision. Defined.

#[global] Instance datetime_eq_dec : EqDecision datetime.
Proof. solve_decision. Defined.

#[global] Instance pyval_eq_dec : EqDecision pyval.
Proof. solve_decision. Defined.

(** [str(v)], what [%s] inserts. *)
Definition pyval_str (v : pyval) : string :=
  match v with
  | PStr s => s
  | PDateTime t => datetime_str t
  | PList l => "[" +:+ join ", " l +:+ "]"
  end.

(** [template % env] for a template whose only conversions are of the
    form [%(key)s]. *)
Definition env_lookup (env : list (string * string)) (key : string)
  : result string :=
  match list_find (λ kv, kv.1 = key) env with
  | Some (_, kv) => Ok kv.2
  | None => Raise (OtherError "KeyError" key)
  end.

Fixpoint format_go (env : list (string * string)) (key : option string)
    (s : string) : result string :=
  match s with
  | EmptyString =>
      match key with
      | None => Ok ""
      | Some _ => Raise (ValueError "incomplete format key")
      end
  | String c rest =>
      match key with
      | None =>
          if Ascii.eqb c "%"%char then
            match rest with
            | String "(" rest' => format_go env (Some "") rest'
            | _ => Raise (ValueError "unsupported format character")
            end
          else out ← format_go env None rest; Ok (String c out)
      | Some acc =>
          if Ascii.eqb c ")"%char then
            match rest with
            | String "s" rest' =>
                v ← env_lookup env acc;
                out ← format_go env None rest';
                Ok (v +:+ out)
            | _ => Raise (ValueError "unsupported format character")
            end
          else format_go env (Some (acc +:+ String c "")) rest
      end
  end.

Definition format_named (template : string) (env : list (string * string))
  : result string :=
  format_go env None template.

(** *** The form assertion specifications *)

(** [FormAssertSpec] and its subclass [DateTimeAssert].  The constructors
    hold the attributes assigned by [__init__]. *)
Inductive FormAssertSpec : Type :=
| ExactAssert (expected_value : pyval) (value_function_name : string)
| DateTimeAssert (expected_value : datetime) (value_function_name : string)
    (date_format : string) (allowed_delta : timedelta).

Definition FormAssertSpec_init (expected_value : pyval)
    (value_function_name : option string) : FormAssertSpec :=
  ExactAssert expected_value (default "get_value" value_function_name).

(** [DateTimeAssert.__init__]; an omitted keyword argument is [None]. *)
Definition DateTimeAssert_init (expected_value : datetime)
    (value_function_name : option string) (date_format : option string)
    (allowed_delta : option timedelta) : FormAssertSpec :=
  DateTimeAssert expected_value
    (default "get_value" value_function_name)
    (default "%Y-%m-%d %H:%M" date_format)
    (match allowed_delta with
     | Some d => if td_truthy d then d else timedelta_minutes 1
     | None => timedelta_minutes 1
     end).

Definition expected_value (a : FormAssertSpec) : pyval :=
  match a with
  | ExactAssert e _ => e
  | DateTimeAssert e _ _ _ => PDateTime e
  end.

Definition value_function_name (a : FormAssertSpec) : string :=
  match a with
  | ExactAssert _ f => f
  | DateTimeAssert _ f _ _ => f
  end.

(** What [verify_form] finds under a field name: an assertion
    specification, or any other value (a list of the expected suggester
    items, or the expected text). *)
Inductive field_spec : Type :=
| Assert (a : FormAssertSpec)
| Plain (v : pyval).

(** An entry of the [errors] dictionary. *)
Record ErrorEntry : Type := {
  expected : pyval;
  retrieved : pyval
}.

(** *** The locator table [self.elements] *)

Module Elements.
Definition navigation_logout : string := "//a[@class='icn logout']".
Definition controls_suggester_visible : string := "//span[@class='hilite']".
Definition controls_suggester_selected : string :=
  "//input[@id='id_%(field)s']/../ul/li[@class='suggest-selected-item']".
Definition controls_message_ok : string :=
  "//div[@id='opmsg']/span[@class='okmsg']".
Definition controls_save : string := "//a[@class='js-submit icn btn save def']".
Definition controls_lookup_content : string :=
  "//div[@id='changelist']/form/table/tbody/tr/th/a[text()='%(text)s']".
Definition pages_login_submit : string := "//input[@type='submit']".
Definition pages_listing_object : string :=
  "//div[@id='changelist']/form/table/tbody/tr[position()='%(position)s']".
Definition pages_listing_object_href : string :=
  "//div[@id='changelist']/form/table/tbody/tr[position()='%(position)s']/th/a[position()=2]".
Definition pages_listing_datepicker : string :=
  "//td[@class='%(field)s']/span[@class='dtpicker-trigger']".
Definition pages_listing_calendar_day : string :=
  "//table[@class='ui-datepicker-calendar']/tbody/tr/td/a[text()='%(day)s']".
End Elements.

Definition USER_USERNAME : string := "superman".
Definition USER_PASSWORD : string := "xxx".
Definition NEWMAN_URI : string := "/newman/".

(** *** The Selenium client *)

(** An argument of a client method. *)
Inductive arg : Type :=
| AStr (s : string)
| AInt (n : Z).

(** What happens during a helper method: calls of client methods with
    their outcome, and [sleep]. *)
Inductive event : Type :=
| Called (method : string) (args : list arg) (outcome : result string)
| Slept (milliseconds : Z).

Section Helper.

(** The remote browser together with its client is a state machine:
    [selenium m args] is the effect of a call of the client method named
    [m] with the arguments [args].
    A method that returns nothing returns the empty text. *)
Context {Browser : Type}.
Variable selenium : string → list arg → Browser → result string * Browser.

(** [datetime.strptime(date_string, format)] *)
Variable strptime : string → string → result datetime.

Record World : Type := {
  browser : Browser;
  log : list event
}.

(** Computations that act on the browser and may raise. *)
Definition M (A : Type) : Type := World → result A * World.

#[global] Instance M_ret : MRet M := λ A a w, (Ok a, w).

#[global] Instance M_bind : MBind M := λ A B k m w,
  match m w with
  | (Ok a, w') => k a w'
  | (Raise e, w') => (Raise e, w')
  end.

Definition raise {A} (e : exn) : M A := λ w, (Raise e, w).

Definition lift {A} (r : result A) : M A := λ w, (r, w).

Definition call (method : string) (args : list arg) : M string := λ w,
  let '(r, b) := selenium method args (browser w) in
  (r, {| browser := b; log := log w ++ [Called method args r] |}).

Definition sleep (milliseconds : Z) : M unit := λ w,
  (Ok tt, {| browser := browser w; log := log w ++ [Slept milliseconds] |}).

(** A [for] loop that updates a local variable. *)
Fixpoint foldM {A B} (body : B → A → M B) (b : B) (l : list A) : M B :=
  match l with
  | [] => mret b
  | x :: l' => b' ← body b x; foldM body b' l'
  end.

Definition for_each {A} (l : list A) (body : A → M unit) : M unit :=
  foldM (λ _ x, body x) tt l.

(** *** [FormAssertSpec.is_equal] and [DateTimeAssert.is_equal] *)

Definition is_equal (self : FormAssertSpec) (retrieved_value : string)
  : result bool :=
  match self with
  | ExactAssert expected _ =>
      Ok (bool_decide (PStr retrieved_value = expected))
  | DateTimeAssert expected _ date_format allowed_delta =>
      retrieved_time ← strptime retrieved_value date_format;
      if datetime_gt retrieved_time expected
      then Ok (td_le (datetime_sub retrieved_time expected) allowed_delta)
      else Ok (td_le (datetime_sub expected retrieved_time) allowed_delta)
  end.

(** *** [NewmanTestCase] *)

Definition login : M unit :=
  _ ← call "open" [AStr NEWMAN_URI];
  _ ← call "type" [AStr "id_username"; AStr USER_USERNAME];
  _ ← call "type" [AStr "id_password"; AStr USER_PASSWORD];
  _ ← call "click" [AStr Elements.pages_login_submit];
  _ ← call "wait_for_page_to_load" [AInt 30000];
  sleep 200.

Definition logout : M unit :=
  _ ← call "click" [AStr Elements.navigation_logout];
  _ ← call "wait_for_element_present" [AStr "id_username"];
  mret tt.

Definition get_listing_object (position : Z) : result string :=
  format_named Elements.pages_listing_object
    [("position", str_int position)].

Definition get_listing_object_href (position : Z) : result string :=
  format_named Elements.pages_listing_object_href
    [("position", str_int position)].

(** The dictionaries passed to the [fill_*] methods and to [verify_form]
    are given by their items, in the order in which the dictionary yields
    them. *)
Definition fill_fields (data : list (string * string)) : M unit :=
  for_each data (λ kv,
    _ ← call "type" [AStr ("id_" +:+ kv.1); AStr kv.2]; mret tt).

Definition fill_suggest_fields (suggest_data : list (string * list string))
  : M unit :=
  for_each suggest_data (λ kv,
    for_each kv.2 (λ value,
      let id := "id_" +:+ kv.1 +:+ "_suggest" in
      _ ← call "click" [AStr id];
      _ ← call "type" [AStr id; AStr value];
      _ ← call "click" [AStr id];
      _ ← call "wait_for_element_present"
            [AStr Elements.controls_suggester_visible];
      _ ← call "click" [AStr Elements.controls_suggester_visible];
      mret tt)).

Definition fill_calendar_fields
    (calendar_data : list (string * gmap string Z)) : M unit :=
  for_each calendar_data (λ kv,
    xpath ← lift (format_named Elements.pages_listing_datepicker
                    [("field", kv.1)]);
    _ ← call "click" [AStr xpath];
    day ← lift (match kv.2 !! "day" with
                | Some d => Ok d
                | None => Raise (OtherError "KeyError" "day")
                end);
    xpath ← lift (format_named Elements.pages_listing_calendar_day
                    [("day", str_int day)]);
    _ ← call "click" [AStr xpath];
    mret tt).

Definition fill_using_lookup (data : list (string * string)) : M unit :=
  for_each data (λ kv,
    let xpath := "lookup_id_" +:+ kv.1 in
    _ ← call "click" [AStr xpath];
    content ← lift (format_named Elements.controls_lookup_content
                      [("text", kv.2)]);
    _ ← call "click" [AStr content];
    mret tt).

Definition save_form : M unit :=
  _ ← call "click" [AStr Elements.controls_save];
  _ ← call "wait_for_element_present" [AStr Elements.controls_message_ok];
  mret tt.

(** The keys of [errors] are visited in the order of [map_to_list]; the
    order in which a Python 2 dictionary yields its keys is not specified,
    and nothing below depends on it. *)
Definition format_error (field : string) (e : ErrorEntry) : string :=
  let expected :=
    match expected e with PList l => PStr (join "" l) | v => v end in
  let retrieved :=
    match retrieved e with PList l => PStr (join "" l) | v => v end in
  "Form validation for field " +:+ field +:+ " was expecting "
  +:+ pyval_str expected +:+ ", but got " +:+ pyval_str retrieved.

Definition error_messages (errors : gmap string ErrorEntry) : list string :=
  (λ fe, format_error fe.1 fe.2) <$> map_to_list errors.

Definition get_formatted_form_errors (errors : gmap string ErrorEntry)
  : string :=
  join (String "010" "") (error_messages errors).

Definition add_error (errors : gmap string ErrorEntry) (field : string)
    (expected retrieved : pyval) : gmap string ErrorEntry :=
  <[field := {| expected := expected; retrieved := retrieved |}]> errors.

(** The body of the inner loop of [verify_form], for index [i] of the list
    [spec]. *)
Definition verify_item (field : string) (spec : list string)
    (errors : gmap string ErrorEntry) (i : nat)
  : M (gmap string ErrorEntry) :=
  xpath ← lift (format_named
                  (Elements.controls_suggester_selected +:+ "[%(number)s]")
                  [("field", field); ("number", str_int (Z.of_nat i + 1))]);
  text ← call "get_text" [AStr xpath];
  expected_i ← lift (match spec !! i with
                     | Some x => Ok x
                     | None => Raise (OtherError "IndexError"
                                        "list index out of range")
                     end);
  mret (if decide (text ≠ expected_i)
        then add_error errors field (PList spec) (PStr text)
        else errors).

(** The body of the outer loop of [verify_form]. *)
Definition verify_field (errors : gmap string ErrorEntry)
    (item : string * field_spec) : M (gmap string ErrorEntry) :=
  let field := item.1 in
  match item.2 with
  | Assert spec =>
      text ← call (value_function_name spec) [AStr ("id_" +:+ field)];
      equal ← lift (is_equal spec text);
      mret (if negb equal
            then add_error errors field (expected_value spec) (PStr text)
            else errors)
  | Plain (PList spec) =>
      foldM (verify_item field spec) errors (seq 0 (length spec))
  | Plain spec =>
      text ← call "get_value" [AStr ("id_" +:+ field)];
      mret (if decide (PStr text ≠ spec)
            then add_error errors field spec (PStr text)
            else errors)
  end.

Definition verify_fields (errors : gmap string ErrorEntry)
    (data : list (string * field_spec)) : M (gmap string ErrorEntry) :=
  foldM verify_field errors data.

Definition verify_form (data : list (string * field_spec)) : M unit :=
  errors ← verify_fields ∅ data;
  if decide (0 < size errors)%nat
  then raise (AssertionError (get_formatted_form_errors errors))
  else mret tt.

End Helper.

End Helpers.

(** ** What [verify_form] is expected to do

    The notions in which the properties of [verify_form] are stated: the
    texts the client returns for each field, the error a field deserves
    for them, and the trace of client calls. *)

Module FormSpec.
Import Helpers.

(** The locator of the [i]-th selected suggester item of a field
    (counting from 0). *)
Definition selected_item_xpath (field : string) (i : nat) : string :=
  "//input[@id='id_" +:+ field
  +:+ "']/../ul/li[@class='suggest-selected-item']["
  +:+ str_int (Z.of_nat i + 1) +:+ "]".

(** The retrieved texts of a list field that differ from the expected item
    at their position, in order. *)
Definition mismatched (spec texts : list string) : list string :=
  (filter (λ p, p.2 ≠ p.1) (zip spec texts)).*2.

(** The exception a client call raised, if the event is one. *)
Definition driver_raised (ev : event) : option exn :=
  match ev with
  | Called _ _ (Raise e) => Some e
  | _ => None
  end.

(** A computation propagates the exceptions of the client: a call that
    raises is the last thing it does, and it ends with that exception. *)
Definition propagates {Browser A} (m : M (Browser:=Browser) A) : Prop :=
  ∀ w, ∃ t,
    log (m w).2 = log w ++ t
    ∧ ∀ i e, driver_raised <$> t !! i = Some (Some e) →
             S i = length t ∧ (m w).1 = Raise e.

(** The same, by cases: no call raised, or the last one did and its
    exception is the outcome. *)
Inductive faithful {A} : list event → result A → Prop :=
| faithful_clean t r :
    Forall (λ ev, driver_raised ev = None) t → faithful t r
| faithful_raised t meth args e :
    Forall (λ ev, driver_raised ev = None) t →
    faithful (t ++ [Called meth args (Raise e)]) (Raise e).

Section Spec.
Context {Browser : Type}.
Variable selenium : string → list arg → Browser → result string * Browser.
Variable strptime : string → string → result datetime.

Definition tracked {A} (m : M (Browser:=Browser) A) : Prop :=
  ∀ w, ∃ t, log (m w).2 = log w ++ t ∧ faithful t (m w).1.

Fixpoint mapM {A B} (f : A → M (Browser:=Browser) B) (l : list A)
  : M (list B) :=
  match l with
  | [] => mret []
  | x :: l' => y ← f x; ys ← mapM f l'; mret (y :: ys)
  end.

(** The texts the client returns for a field: one text, or one for each
    item of an expected list. *)
Definition retrieve (item : string * field_spec) : M (list string) :=
  match item.2 with
  | Assert spec =>
      text ← call selenium (value_function_name spec)
               [AStr ("id_" +:+ item.1)];
      mret [text]
  | Plain (PList spec) =>
      mapM (λ i, call selenium "get_text"
                   [AStr (selected_item_xpath item.1 i)])
        (seq 0 (length spec))
  | Plain _ =>
      text ← call selenium "get_value" [AStr ("id_" +:+ item.1)];
      mret [text]
  end.

Definition retrieve_all (data : list (string * field_spec))
  : M (list (list string)) :=
  mapM retrieve data.

(** The error entry a field deserves for the texts retrieved for it, if
    any.  A list is in error when some item differs, and its entry shows
    the last item that does. *)
Definition field_error (spec : field_spec) (texts : list string)
  : result (option ErrorEntry) :=
  match spec with
  | Assert a =>
      match texts with
      | [text] =>
          is_equal strptime a text ≫= λ equal : bool,
          Ok (if equal then None
              else Some {| expected := expected_value a;
                           retrieved := PStr text |})
      | _ => Ok None
      end
  | Plain (PList l) =>
      Ok ((λ text, {| expected := PList l; retrieved := PStr text |})
            <$> last (mismatched l texts))
  | Plain v =>
      match texts with
      | [text] =>
          Ok (if decide (PStr text ≠ v)
              then Some {| expected := v; retrieved := PStr text |}
              else None)
      | _ => Ok None
      end
  end.

(** The verdict on every field, given the texts retrieved for each. *)
Fixpoint verdicts (data : list (string * field_spec))
    (texts : list (list string))
  : result (list (string * option ErrorEntry)) :=
  match data, texts with
  | item :: data', ts :: texts' =>
      oe ← field_error item.2 ts;
      rest ← verdicts data' texts';
      Ok ((item.1, oe) :: rest)
  | _, _ => Ok []
  end.

Definition record (errors : gmap string ErrorEntry)
    (v : string * option ErrorEntry) : gmap string ErrorEntry :=
  match v.2 with
  | Some entry => <[v.1 := entry]> errors
  | None => errors
  end.

(** The fields in error, with their entries. *)
Definition mismatches (vs : list (string * option ErrorEntry))
  : list (string * ErrorEntry) :=
  omap (λ v, pair v.1 <$> v.2) vs.

End Spec.

End FormSpec.

(** ** Concrete inputs for the examples *)

Module Sample.
Import Admin Helpers.

(** A [strptime] for the examples: the default format of [DateTimeAssert]
    on zero-padded text.  Other formats, and the unpadded fields that
    Python accepts as well, are outside it and are rejected. *)
Definition digit_of (c : ascii) : option Z :=
  let n := Z.of_N (N_of_ascii c) in
  if (48 <=? n) && (n <=? 57) then Some (n - 48) else None.

Fixpoint read_digits (width : nat) (s : string) (acc : Z)
  : option (Z * string) :=
  match width with
  | O => Some (acc, s)
  | S width' =>
      match s with
      | String c rest =>
          match digit_of c with
          | Some d => read_digits width' rest (10 * acc + d)
          | None => None
          end
      | EmptyString => None
      end
  end.

Definition read_char (c : ascii) (s : string) : option string :=
  match s with
  | String c' rest => if Ascii.eqb c c' then Some rest else None
  | EmptyString => None
  end.

Definition parse_minutes (s : string) : option datetime :=
  '(y, s) ← read_digits 4 s 0;
  s ← read_char "-" s;
  '(m, s) ← read_digits 2 s 0;
  s ← read_char "-" s;
  '(d, s) ← read_digits 2 s 0;
  s ← read_char " " s;
  '(hh, s) ← read_digits 2 s 0;
  s ← read_char ":" s;
  '(mm, s) ← read_digits 2 s 0;
  match s with
  | EmptyString => Some (DateTime (Date y m d) hh mm 0 0)
  | String _ _ => None
  end.

Definition strptime (date_string format : string) : result datetime :=
  if decide (format = "%Y-%m-%d %H:%M") then
    match parse_minutes date_string with
    | Some t =>
        if valid_datetime t then Ok t
        else Raise (ValueError "time data does not match format")
    | None => Raise (ValueError "time data does not match format")
    end
  else Raise (ValueError "format not covered by the examples").

(** A client for the examples.  The browser is the text found under each
    locator: [type] stores a text, [get_value] and [get_text] read it and
    fail for an unknown locator, every other method does nothing. *)
Definition selenium (method : string) (args : list arg)
    (page : gmap string string) : result string * gmap string string :=
  match args with
  | [AStr locator; AStr text] =>
      if decide (method = "type") then (Ok "", <[locator := text]> page)
      else (Ok "", page)
  | [AStr locator] =>
      if decide (method = "get_value" ∨ method = "get_text") then
        (match page !! locator with
         | Some text => Ok text
         | None => Raise (OtherError "Exception"
                            ("ERROR: Element " +:+ locator +:+ " not found"))
         end, page)
      else (Ok "", page)
  | _ => (Ok "", page)
  end.

Definition start (page : gmap string string)
  : World (Browser:=gmap string string) :=
  {| browser := page; log := [] |}.

Definition today : date := Date 2010 1 5.

Definition fspec : FilterSpec :=
  {| params := dict [("ts__gte", "2010-01-01"); ("page", "2")];
     field_path := "ts";
     field := DateTimeField;
     field_generic := "";
     date_params := ∅;
     links := [] |}.

(** A form of four fields: the title and two of the three tags differ
    from what is expected, the slug and the time agree. *)
Definition noon : datetime := DateTime (Date 2010 1 1) 12 0 0 0.

Definition data : list (string * field_spec) :=
  [ ("title", Plain (PStr "Hello"));
    ("tags", Plain (PList ["a"; "b"; "c"]));
    ("slug", Plain (PStr "hello"));
    ("publish_from", Assert (DateTimeAssert_init noon None None None)) ].

Definition page : gmap string string :=
  list_to_map
    [ ("id_title", "Hullo");
      (FormSpec.selected_item_xpath "tags" 0, "x");
      (FormSpec.selected_item_xpath "tags" 1, "b");
      (FormSpec.selected_item_xpath "tags" 2, "z");
      ("id_slug", "hello");
      ("id_publish_from", "2010-01-01 12:01") ].

Definition texts : list (list string) :=
  [ ["Hullo"]; ["x"; "b"; "z"]; ["hello"]; ["2010-01-01 12:01"] ].

Definition vs : list (string * option ErrorEntry) :=
  [ ("title", Some {| expected := PStr "Hello"; retrieved := PStr "Hullo" |});
    ("tags", Some {| expected := PList ["a"; "b"; "c"];
                     retrieved := PStr "z" |});
    ("slug", None);
    ("publish_from", None) ].

(** A form whose time field shows a text that is not a time. *)
Definition stale_page : gmap string string :=
  list_to_map
    [ ("id_title", "Hullo");
      ("id_publish_from", "yesterday");
      ("id_slug", "hello") ].

End Sample.

(** ** Further notions for the helper methods and the handler *)

Module TraceSpec.
Import Helpers.

(** The events [verify_form] may cause for [data]: a call with one locator
    of [get_value], of [get_text], or of the value function named by one
    of the assertion specifications of [data]. *)
Definition reads_for (data : list (string * field_spec)) (ev : event)
  : Prop :=
  match ev with
  | Called meth [AStr _] _ =>
      meth = "get_value" ∨ meth = "get_text"
      ∨ ∃ field a, (field, Assert a) ∈ data ∧ meth = value_function_name a
  | _ => False
  end.

(** All the events of a computation satisfy [P]. *)
Definition emits {Browser A} (P : event → Prop)
    (m : M (Browser:=Browser) A) : Prop :=
  ∀ w, ∃ t, log (m w).2 = log w ++ t ∧ Forall P t.

(** The calendar rule for the date a week earlier. *)
Definition week_before (d : date) : date :=
  if 7 <? day d then Date (year d) (month d) (day d - 7)
  else if 1 <? month d
       then Date (year d) (month d - 1)
              (days_in_month (year d) (month d - 1) + day d - 7)
       else Date (year d - 1) 12 (24 + day d).

End TraceSpec.

Module SampleStore.
Import Admin.

(** A store for the examples: saving a new object gives it the next key,
    and nothing else of the object changes. *)
Definition Model_save (obj : DevMessage string) (next : positive)
  : DevMessage string * positive :=
  match id obj with
  | Some _ => (obj, next)
  | None =>
      ({| id := Some next; author := author obj;
          title := title obj; slug := slug obj |}, Pos.succ next)
  end.

Definition draft : DevMessage string :=
  {| id := None; author := None; title := "Release"; slug := "release" |}.

End SampleStore.

(** ** What the failure message of [verify_form] has to say *)

Module MessageSpec.
Import Helpers FormSpec.

(** A value as the message shows it: a text as it is, a datetime as
    [str] prints it, a list as its items one after the other. *)
Definition shown (v : pyval) : string :=
  match v with
  | PStr s => s
  | PDateTime t => datetime_str t
  | PList l => foldr String.append "" l
  end.

(** The line of the message for a field. *)
Definition failure_line (field expected retrieved : string) : string :=
  "Form validation for field " +:+ field +:+ " was expecting "
  +:+ expected +:+ ", but got " +:+ retrieved.

Section Judge.
Variable strptime : string → string → result datetime.

(** Whether a retrieved text satisfies an assertion specification: it is
    the expected value, or, for a [DateTimeAssert], it parses to a time at
    most [allowed_delta] away from the expected one. *)
Definition satisfies (a : FormAssertSpec) (text : string) : result bool :=
  match a with
  | ExactAssert e _ => Ok (bool_decide (e = PStr text))
  | DateTimeAssert e _ fmt delta =>
      match strptime text fmt with
      | Ok t => Ok (bool_decide (Z.abs (to_us t - to_us e) ≤ delta))
      | Raise exn => Raise exn
      end
  end.

(** For the texts retrieved for a field, whether the field mismatches,
    and then the expected and the retrieved value its line shows. *)
Definition field_mismatch (spec : field_spec) (texts : list string)
  : result (option (string * string)) :=
  match spec with
  | Assert a =>
      match texts with
      | [text] =>
          match satisfies a text with
          | Ok true => Ok None
          | Ok false => Ok (Some (shown (expected_value a), text))
          | Raise exn => Raise exn
          end
      | _ => Ok None
      end
  | Plain (PList l) =>
      Ok (pair (shown (PList l)) <$> last (mismatched l texts))
  | Plain v =>
      match texts with
      | [text] =>
          Ok (if decide (v = PStr text) then None else Some (shown v, text))
      | _ => Ok None
      end
  end.

Fixpoint judgements (data : list (string * field_spec))
    (texts : list (list string))
  : result (list (string * option (string * string))) :=
  match data, texts with
  | item :: data', ts :: texts' =>
      match field_mismatch item.2 ts, judgements data' texts' with
      | Ok m, Ok rest => Ok ((item.1, m) :: rest)
      | Raise exn, _ => Raise exn
      | _, Raise exn => Raise exn
      end
  | _, _ => Ok []
  end.

(** The parser yields datetimes of the calendar. *)
Definition sound_parser : Prop :=
  ∀ text fmt t, strptime text fmt = Ok t → valid_datetime t = true.

End Judge.

(** The expected times of the form data are datetimes of the calendar. *)
Definition sound_expectations (data : list (string * field_spec)) : Prop :=
  ∀ field e vfn fmt delta,
    (field, Assert (DateTimeAssert e vfn fmt delta)) ∈ data →
    valid_datetime e = true.

(** Every assertion specification of the form data retrieves its text
    with [get_value] or [get_text]. *)
Definition reads_values (data : list (string * field_spec)) : Prop :=
  ∀ field a,
    (field, Assert a) ∈ data →
    value_function_name a = "get_value" ∨ value_function_name a = "get_text".

(** The lines of the fields that mismatch. *)
Definition failed_lines (ms : list (string * option (string * string)))
  : list string :=
  omap (λ m, (λ er, failure_line m.1 er.1 er.2) <$> m.2) ms.

(** A call that reads: one locator passed to [get_value] or [get_text]. *)
Definition is_read (ev : event) : Prop :=
  match ev with
  | Called meth [AStr _] _ => meth = "get_value" ∨ meth = "get_text"
  | _ => False
  end.

End MessageSpec.

Module SampleForm.
Import Helpers.

(** A form of five fields, four of which mismatch: a plain text, two of
    three suggester items, a text under a [FormAssertSpec], and a time
    one minute late under a tolerance of thirty seconds.  The same time
    under the default tolerance agrees. *)
Definition data : list (string * field_spec) :=
  [ ("title", Plain (PStr "Hello"));
    ("tags", Plain (PList ["a"; "b"; "c"]));
    ("slug", Assert (FormAssertSpec_init (PStr "hello") None));
    ("publish_from",
     Assert (DateTimeAssert_init Sample.noon None None None));
    ("publish_to",
     Assert (DateTimeAssert_init Sample.noon None None
               (Some (timedelta_seconds 30)))) ].

Definition page : gmap string string :=
  list_to_map
    [ ("id_title", "Hullo");
      (FormSpec.selected_item_xpath "tags" 0, "x");
      (FormSpec.selected_item_xpath "tags" 1, "b");
      (FormSpec.selected_item_xpath "tags" 2, "z");
      ("id_slug", "hullo");
      ("id_publish_from", "2010-01-01 12:01");
      ("id_publish_to", "2010-01-01 12:01") ].

Definition texts : list (list string) :=
  [ ["Hullo"]; ["x"; "b"; "z"]; ["hullo"];
    ["2010-01-01 12:01"]; ["2010-01-01 12:01"] ].

Definition judged : list (string * option (string * string)) :=
  [ ("title", Some ("Hello", "Hullo"));
    ("tags", Some ("abc", "z"));
    ("slug", Some ("hello", "hullo"));
    ("publish_from", None);
    ("publish_to", Some ("2010-01-01 12:00:00", "2010-01-01 12:01")) ].

End SampleForm.

(** * Properties *)

#[local] Arguments String.append !_ _ / : simpl nomatch.

(** ** The calendar *)

Module DatetimeFacts.

Lemma is_leap_cases y :
  (is_leap y = true ∧ y mod 4 = 0 ∧ (y mod 100 ≠ 0 ∨ y mod 400 = 0))
  ∨ (is_leap y = false ∧ (y mod 4 ≠ 0 ∨ (y mod 100 = 0 ∧ y mod 400 ≠ 0))).
Proof.
  unfold is_leap.
  destruct (Z.eqb_spec (y mod 4) 0), (Z.eqb_spec (y mod 100) 0),
    (Z.eqb_spec (y mod 400) 0); simpl; intuition lia.
Qed.

Lemma days_before_year_succ y :
  days_before_year (y + 1) = days_before_year y + 365 + leap_days y.
Proof.
  unfold days_before_year, leap_days.
  replace (y + 1 - 1) with y by lia.
  destruct (is_leap_cases y) as [(-> & H4 & H)|(-> & H)];
    revert H; try revert H4; Z.div_mod_to_equations; lia.
Qed.

Lemma days_before_year_mono a b : a ≤ b → days_before_year a ≤ days_before_year b.
Proof.
  intros Hab. unfold days_before_year. Z.div_mod_to_equations. lia.
Qed.

Lemma month_cases m : 1 ≤ m ≤ 12 →
  m = 1 ∨ m = 2 ∨ m = 3 ∨ m = 4 ∨ m = 5 ∨ m = 6 ∨ m = 7 ∨ m = 8 ∨ m = 9
  ∨ m = 10 ∨ m = 11 ∨ m = 12.
Proof. lia. Qed.

Ltac each_month H :=
  apply month_cases in H;
  repeat (destruct H as [H|H]; [subst|]); [..|subst].

Lemma days_before_month_succ y m : 1 ≤ m ≤ 11 →
  days_before_month y (m + 1) = days_before_month y m + days_in_month y m.
Proof.
  intros H. assert (Hm : 1 ≤ m ≤ 12) by lia.
  each_month Hm; try lia;
    unfold days_before_month, days_in_month; simpl;
    destruct (is_leap y); simpl; lia.
Qed.

Lemma days_before_month_12 y :
  days_before_month y 12 + 31 = 365 + leap_days y.
Proof.
  unfold days_before_month, leap_days; simpl. destruct (is_leap y); simpl; lia.
Qed.

Lemma days_in_month_bounds y m : 1 ≤ m ≤ 12 → 28 ≤ days_in_month y m ≤ 31.
Proof.
  intros Hm. each_month Hm; unfold days_in_month;
    try destruct (is_leap y); lia.
Qed.

Lemma days_before_month_mono y m1 m2 : 1 ≤ m1 → m1 < m2 → m2 ≤ 12 →
  days_before_month y m1 + days_in_month y m1 ≤ days_before_month y m2.
Proof.
  intros H1 H12 H2.
  assert (Hm1 : 1 ≤ m1 ≤ 12) by lia. assert (Hm2 : 1 ≤ m2 ≤ 12) by lia.
  each_month Hm1; each_month Hm2; try lia;
    unfold days_before_month, days_in_month; simpl;
    destruct (is_leap y); simpl; lia.
Qed.

Lemma days_before_month_end y m : 1 ≤ m ≤ 12 →
  0 ≤ days_before_month y m
  ∧ days_before_month y m + days_in_month y m ≤ 365 + leap_days y.
Proof.
  intros Hm. each_month Hm; unfold days_before_month, days_in_month, leap_days;
    simpl; destruct (is_leap y); simpl; lia.
Qed.

Lemma valid_date_spec d :
  valid_date d = true ↔
  1 ≤ year d ≤ 9999 ∧ 1 ≤ month d ≤ 12 ∧ 1 ≤ day d ≤ days_in_month (year d) (month d).
Proof.
  unfold valid_date, MINYEAR, MAXYEAR.
  rewrite !andb_true_iff, !Z.leb_le. lia.
Qed.

Lemma toordinal_bounds d : valid_date d = true →
  days_before_year (year d) + 1 ≤ toordinal d ≤ days_before_year (year d + 1).
Proof.
  intros (Hy & Hm & Hd)%valid_date_spec. unfold toordinal.
  rewrite days_before_year_succ.
  pose proof (days_before_month_end (year d) _ Hm). lia.
Qed.

Lemma toordinal_prev_day d :
  valid_date d = true → 2 ≤ toordinal d →
  valid_date (prev_day d) = true ∧ toordinal (prev_day d) = toordinal d - 1.
Proof.
  intros Hv Ho. pose proof Hv as (Hy & Hm & Hd)%valid_date_spec.
  unfold prev_day.
  destruct (Z.ltb_spec 1 (day d)) as [Hd1|Hd1].
  { split; [apply valid_date_spec; simpl; lia | unfold toordinal; simpl; lia]. }
  destruct (Z.ltb_spec 1 (month d)) as [Hm1|Hm1].
  { pose proof (days_in_month_bounds (year d) (month d - 1) ltac:(lia)).
    split; [apply valid_date_spec; simpl; lia |].
    unfold toordinal; simpl.
    pose proof (days_before_month_succ (year d) (month d - 1) ltac:(lia)) as E.
    replace (month d - 1 + 1) with (month d) in E by lia. lia. }
  assert (month d = 1) as Em by lia. assert (day d = 1) as Ed by lia.
  assert (year d ≠ 1) as Hy1.
  { intros Ey. revert Ho. unfold toordinal. rewrite Ey, Em, Ed. vm_compute. congruence. }
  split; [apply valid_date_spec; simpl; lia |].
  unfold toordinal; simpl. rewrite Em, Ed.
  pose proof (days_before_year_succ (year d - 1)) as E.
  replace (year d - 1 + 1) with (year d) in E by lia.
  pose proof (days_before_month_12 (year d - 1)).
  change (days_before_month (year d) 1) with (0 + (if (2 <? 1) && is_leap (year d) then 1 else 0)).
  simpl. lia.
Qed.

Lemma toordinal_next_day d :
  valid_date d = true → toordinal d < max_ordinal →
  valid_date (next_day d) = true ∧ toordinal (next_day d) = toordinal d + 1.
Proof.
  intros Hv Ho. pose proof Hv as (Hy & Hm & Hd)%valid_date_spec.
  unfold next_day.
  destruct (Z.ltb_spec (day d) (days_in_month (year d) (month d))) as [Hd1|Hd1].
  { split; [apply valid_date_spec; simpl; lia | unfold toordinal; simpl; lia]. }
  destruct (Z.ltb_spec (month d) 12) as [Hm1|Hm1].
  { pose proof (days_in_month_bounds (year d) (month d + 1) ltac:(lia)).
    split; [apply valid_date_spec; simpl; lia |].
    unfold toordinal; simpl.
    pose proof (days_before_month_succ (year d) (month d) ltac:(lia)). lia. }
  assert (month d = 12) as Em by lia.
  assert (day d = 31) as Ed by (rewrite Em in Hd, Hd1; simpl in *; lia).
  assert (year d ≠ 9999) as Hy1.
  { intros Ey. revert Ho. unfold toordinal. rewrite Ey, Em, Ed. vm_compute. congruence. }
  split; [apply valid_date_spec; simpl; lia |].
  unfold toordinal; simpl. rewrite Em, Ed.
  rewrite days_before_year_succ.
  pose proof (days_before_month_12 (year d)).
  change (days_before_month (year d + 1) 1) with (0 + (if (2 <? 1) && is_leap (year d + 1) then 1 else 0)).
  simpl. lia.
Qed.

Lemma iter_prev_day (n : nat) d :
  valid_date d = true → 1 ≤ toordinal d - Z.of_nat n →
  valid_date (Nat.iter n prev_day d) = true
  ∧ toordinal (Nat.iter n prev_day d) = toordinal d - Z.of_nat n.
Proof.
  intros Hv. induction n as [|n IH]; intros Ho; simpl.
  - split; [done | lia].
  - destruct (IH ltac:(lia)) as [Hv' Ho'].
    destruct (toordinal_prev_day _ Hv' ltac:(lia)) as [? ?]. split; [done | lia].
Qed.

Lemma iter_next_day (n : nat) d :
  valid_date d = true → toordinal d + Z.of_nat n ≤ max_ordinal →
  valid_date (Nat.iter n next_day d) = true
  ∧ toordinal (Nat.iter n next_day d) = toordinal d + Z.of_nat n.
Proof.
  intros Hv. induction n as [|n IH]; intros Ho; simpl.
  - split; [done | lia].
  - destruct (IH ltac:(lia)) as [Hv' Ho'].
    destruct (toordinal_next_day _ Hv' ltac:(lia)) as [? ?]. split; [done | lia].
Qed.

Lemma shift_days_spec d n :
  valid_date d = true → 1 ≤ toordinal d + n ≤ max_ordinal →
  valid_date (shift_days d n) = true
  ∧ toordinal (shift_days d n) = toordinal d + n.
Proof.
  intros Hv Ho. unfold shift_days. destruct (Z.leb_spec 0 n).
  - destruct (iter_next_day (Z.to_nat n) d Hv ltac:(lia)) as [? ?].
    split; [done | lia].
  - destruct (iter_prev_day (Z.to_nat (- n)) d Hv ltac:(lia)) as [? ?].
    split; [done | lia].
Qed.

Lemma date_sub_spec d td :
  valid_date d = true → 1 ≤ toordinal d - td_days td ≤ max_ordinal →
  ∃ d', date_sub d td = Ok d' ∧ valid_date d' = true
        ∧ toordinal d' = toordinal d - td_days td.
Proof.
  intros Hv Ho. unfold date_sub.
  destruct (Z.leb_spec 1 (toordinal d - td_days td)); [|lia].
  destruct (Z.leb_spec (toordinal d - td_days td) max_ordinal); [|lia].
  simpl. eexists; split; [done|].
  destruct (shift_days_spec d (- td_days td) Hv ltac:(lia)). split; [done|lia].
Qed.

Lemma toordinal_lt_year a b :
  valid_date a = true → valid_date b = true → year a < year b →
  toordinal a < toordinal b.
Proof.
  intros Ha Hb Hy.
  pose proof (toordinal_bounds a Ha). pose proof (toordinal_bounds b Hb).
  pose proof (days_before_year_mono (year a + 1) (year b) ltac:(lia)). lia.
Qed.

Lemma toordinal_lt_month a b :
  valid_date a = true → valid_date b = true → year a = year b →
  month a < month b → toordinal a < toordinal b.
Proof.
  intros (?&?&?)%valid_date_spec (?&?&?)%valid_date_spec Ey Hm.
  unfold toordinal. rewrite Ey in *.
  pose proof (days_before_month_mono (year b) (month a) (month b)
                ltac:(lia) ltac:(lia) ltac:(lia)). lia.
Qed.

Lemma toordinal_inj a b :
  valid_date a = true → valid_date b = true →
  toordinal a = toordinal b → a = b.
Proof.
  intros Ha Hb E.
  destruct (Z.lt_trichotomy (year a) (year b)) as [H|[Ey|H]].
  { pose proof (toordinal_lt_year a b Ha Hb H). lia. }
  2:{ pose proof (toordinal_lt_year b a Hb Ha H). lia. }
  destruct (Z.lt_trichotomy (month a) (month b)) as [H|[Em|H]].
  { pose proof (toordinal_lt_month a b Ha Hb Ey H). lia. }
  2:{ pose proof (toordinal_lt_month b a Hb Ha (eq_sym Ey) H). lia. }
  destruct a, b; simpl in *; subst. unfold toordinal in E; simpl in E.
  f_equal; lia.
Qed.

Lemma valid_datetime_spec t :
  valid_datetime t = true ↔
  valid_date (dt_date t) = true ∧ 0 ≤ hour t < 24 ∧ 0 ≤ minute t < 60
  ∧ 0 ≤ second t < 60 ∧ 0 ≤ microsecond t < 1000000.
Proof.
  unfold valid_datetime.
  rewrite !andb_true_iff, !Z.leb_le, !Z.ltb_lt. tauto.
Qed.

Lemma datetime_gt_spec a b :
  valid_datetime a = true → valid_datetime b = true →
  datetime_gt a b = true ↔ to_us b < to_us a.
Proof.
  intros (Hda & Hha & Hma & Hsa & Hua)%valid_datetime_spec
         (Hdb & Hhb & Hmb & Hsb & Hub)%valid_datetime_spec.
  unfold datetime_gt, dt_fields, lex_gt, to_us,
    us_per_day, us_per_hour, us_per_minute, us_per_second.
  destruct (Z.ltb_spec (year (dt_date b)) (year (dt_date a))) as [H|H].
  { pose proof (toordinal_lt_year _ _ Hdb Hda H). split; [lia|done]. }
  destruct (Z.ltb_spec (year (dt_date a)) (year (dt_date b))) as [H'|H'].
  { pose proof (toordinal_lt_year _ _ Hda Hdb H'). split; [done|lia]. }
  assert (Ey : year (dt_date a) = year (dt_date b)) by lia. clear H H'.
  destruct (Z.ltb_spec (month (dt_date b)) (month (dt_date a))) as [H|H].
  { pose proof (toordinal_lt_month _ _ Hdb Hda (eq_sym Ey) H). split; [lia|done]. }
  destruct (Z.ltb_spec (month (dt_date a)) (month (dt_date b))) as [H'|H'].
  { pose proof (toordinal_lt_month _ _ Hda Hdb Ey H'). split; [done|lia]. }
  assert (Em : month (dt_date a) = month (dt_date b)) by lia. clear H H'.
  unfold toordinal. rewrite Ey, Em.
  repeat match goal with
  | |- context [?x <? ?y] => destruct (Z.ltb_spec x y)
  end; split; (done || lia).
Qed.

Lemma append_nil_r s : s +:+ "" = s.
Proof. induction s as [|a s IH]; [reflexivity|]. simpl. by rewrite IH. Qed.

Lemma startswith_spec s p : startswith s p = true ↔ ∃ t, s = p +:+ t.
Proof.
  revert s. induction p as [|b p IH]; intros s; simpl.
  - destruct s; split; eauto.
  - destruct s as [|a s]; simpl.
    + split; [done | intros [t Ht]; done].
    + destruct (Ascii.eqb_spec a b) as [->|Hne].
      * rewrite IH. split; intros [t Ht]; exists t; simpl in *; congruence.
      * split; [done | intros [t Ht]; congruence].
Qed.

Lemma append_assoc s t u : (s +:+ t) +:+ u = s +:+ t +:+ u.
Proof. induction s as [|a s IH]; [reflexivity|]. simpl. by rewrite IH. Qed.

Lemma strftime_go_date d : strftime_go d "%Y-%m-%d" = isoformat d.
Proof. unfold isoformat. simpl. by rewrite append_nil_r. Qed.

Lemma strftime_go_end_of_day d :
  strftime_go d "%Y-%m-%d 23:59:59" = isoformat d +:+ " 23:59:59".
Proof.
  unfold isoformat. simpl. rewrite !append_assoc. simpl.
  rewrite !append_assoc. done.
Qed.

Lemma str_truthy_app s t : str_truthy t = true → str_truthy (s +:+ t) = true.
Proof. destruct s; simpl; auto. Qed.


End DatetimeFacts.

(** ** [admin.py] *)

Module AdminFacts.
Import DatetimeFacts Admin.

Lemma dict_list_to_map items : dict items = list_to_map (reverse items).
Proof.
  unfold dict. rewrite <- (reverse_involutive items) at 1.
  generalize (reverse items) as l. intros l.
  induction l as [|kv l IH]; [done|].
  rewrite reverse_cons, foldl_app. simpl. by rewrite IH.
Qed.

Lemma dict_lookup_Some items k v :
  NoDup items.*1 → dict items !! k = Some v ↔ (k, v) ∈ items.
Proof.
  intros Hnd. rewrite dict_list_to_map.
  rewrite <- elem_of_list_to_map.
  - by rewrite elem_of_reverse.
  - by rewrite fmap_reverse, reverse_Permutation.
Qed.

Lemma dict_filter_items (P : string * string → Prop) `{!∀ x, Decision (P x)}
    (m : gmap string string) k v :
  dict (filter P (map_to_list m)) !! k = Some v ↔ m !! k = Some v ∧ P (k, v).
Proof.
  rewrite dict_lookup_Some.
  - rewrite list_elem_of_filter, elem_of_map_to_list. tauto.
  - apply NoDup_fmap_fst.
    + intros x y1 y2 [_ H1%elem_of_map_to_list]%list_elem_of_filter
        [_ H2%elem_of_map_to_list]%list_elem_of_filter. congruence.
    + apply NoDup_filter, NoDup_map_to_list.
Qed.

Lemma clock_ok_spec today :
  clock_ok today = true ↔
  valid_date today = true ∧ toordinal (Date 1900 1 8) ≤ toordinal today.
Proof. unfold clock_ok. by rewrite andb_true_iff, Z.leb_le. Qed.

Lemma year_ge_of_ordinal d y :
  valid_date d = true → days_before_year y < toordinal d → y ≤ year d.
Proof.
  intros Hv Ho. destruct (Z.le_gt_cases y (year d)) as [|Hlt]; [done|].
  pose proof (toordinal_bounds d Hv).
  pose proof (days_before_year_mono (year d + 1) y ltac:(lia)). lia.
Qed.

Section DateFilterFacts.
Variable ugettext : string → string.

(** The complete effect of the handler for a sane clock. *)
Lemma customized_date_field_filter_result today fspec :
  clock_ok today = true →
  ∃ week,
    valid_date week = true ∧ toordinal week = toordinal today - 7 ∧
    customized_date_field_filter ugettext today fspec =
    Ok (true,
        {| params := params fspec;
           field_path := field_path fspec;
           field := field fspec;
           field_generic := field_path fspec +:+ "__";
           date_params :=
             dict (filter (λ kv, startswith kv.1 (field_path fspec +:+ "__") = true)
                     (map_to_list (params fspec)));
           links :=
             [ (ugettext "Any date", ∅);
               (ugettext "Today",
                <[field_path fspec +:+ "__day" := str_int (day today)]>
                  (<[field_path fspec +:+ "__month" := str_int (month today)]>
                     (<[field_path fspec +:+ "__year" := str_int (year today)]> ∅)));
               (ugettext "Past 7 days",
                <[field_path fspec +:+ "__lte" :=
                    if isinstance_DateTimeField (field fspec)
                    then isoformat today +:+ " 23:59:59" else isoformat today]>
                  (<[field_path fspec +:+ "__gte" := isoformat week]> ∅));
               (ugettext "This month",
                <[field_path fspec +:+ "__month" := str_int (month today)]>
                  (<[field_path fspec +:+ "__year" := str_int (year today)]> ∅));
               (ugettext "This year",
                <[field_path fspec +:+ "__year" := str_int (year today)]> ∅) ] |}).
Proof.
  intros [Hv Ho]%clock_ok_spec.
  destruct (date_sub_spec today (timedelta_days 7) Hv) as (week & Hsub & Hvw & Hw).
  { change (td_days (timedelta_days 7)) with 7.
    change (toordinal (Date 1900 1 8)) with 693603 in Ho.
    pose proof (toordinal_bounds today Hv) as Hb.
    pose proof Hv as (Hy & _)%valid_date_spec.
    pose proof (days_before_year_mono (year today + 1) 10000 ltac:(lia)) as Hm.
    change (days_before_year 10000) with 3652059 in Hm. unfold max_ordinal. lia. }
  change (td_days (timedelta_days 7)) with 7 in Hw.
  change (toordinal (Date 1900 1 8)) with 693603 in Ho.
  exists week. split; [done|]. split; [done|].
  assert (1900 ≤ year today) as Hyt.
  { apply year_ge_of_ordinal; [done|]. change (days_before_year 1900) with 693595. lia. }
  assert (1900 ≤ year week) as Hyw.
  { apply year_ge_of_ordinal; [done|]. change (days_before_year 1900) with 693595. lia. }
  unfold customized_date_field_filter. rewrite Hsub. simpl.
  unfold date_strftime.
  destruct (Z.ltb_spec (year today) 1900); [lia|].
  destruct (Z.ltb_spec (year week) 1900); [lia|].
  rewrite !strftime_go_date, !strftime_go_end_of_day.
  destruct (isinstance_DateTimeField (field fspec)); simpl.
  - rewrite str_truthy_app by done. simpl. done.
  - done.
Qed.

Ltac map_lookup :=
  repeat first
    [ rewrite lookup_insert_eq
    | rewrite lookup_insert_ne by congruence
    | rewrite lookup_empty ];
  try done.

Lemma key_ne fp a b : a ≠ b → fp +:+ a ≠ fp +:+ b.
Proof. intros Hab H%(inj (String.app fp)). done. Qed.

(** C4.  For every field, the link [Today] that the handler emits carries
    exactly three constraints, [field__year], [field__month] and
    [field__day], whose values are the string forms of the year, the month
    and the day of the current date. *)
Theorem today_link_constraints today fspec :
  clock_ok today = true →
  ∃ fspec' query,
    customized_date_field_filter ugettext today fspec = Ok (true, fspec')
    ∧ links fspec' !! 1%nat = Some (ugettext "Today", query)
    ∧ query !! (field_path fspec +:+ "__year") = Some (str_int (year today))
    ∧ query !! (field_path fspec +:+ "__month") = Some (str_int (month today))
    ∧ query !! (field_path fspec +:+ "__day") = Some (str_int (day today))
    ∧ dom query = {[ field_path fspec +:+ "__year";
                     field_path fspec +:+ "__month";
                     field_path fspec +:+ "__day" ]}
    ∧ size query = 3%nat.
Proof.
  intros Hc.
  destruct (customized_date_field_filter_result today fspec Hc)
    as (week & _ & _ & ->).
  eexists _, _. split; [done|]. split; [done|]. simpl.
  assert (field_path fspec +:+ "__year" ≠ field_path fspec +:+ "__month")
    by (by apply key_ne).
  assert (field_path fspec +:+ "__year" ≠ field_path fspec +:+ "__day")
    by (by apply key_ne).
  assert (field_path fspec +:+ "__month" ≠ field_path fspec +:+ "__day")
    by (by apply key_ne).
  repeat split.
  - map_lookup.
  - map_lookup.
  - map_lookup.
  - rewrite !dom_insert_L, dom_empty_L, (right_id_L ∅ (∪)).
    apply set_eq. intros k. rewrite !elem_of_union, !elem_of_singleton. tauto.
  - rewrite !map_size_insert_None, map_size_empty by map_lookup. done.
Qed.

(** C3.  For every field, the link [Past 7 days] that the handler emits
    carries exactly two constraints: [field__gte], the date exactly seven
    days before the current date, and [field__lte], the current date,
    followed by [23:59:59] when the field is a [DateTimeField]. *)
Theorem past_7_days_link_constraints today fspec :
  clock_ok today = true →
  ∃ fspec' query week,
    customized_date_field_filter ugettext today fspec = Ok (true, fspec')
    ∧ links fspec' !! 2%nat = Some (ugettext "Past 7 days", query)
    ∧ valid_date week = true
    ∧ toordinal week = toordinal today - 7
    ∧ query !! (field_path fspec +:+ "__gte") = Some (isoformat week)
    ∧ query !! (field_path fspec +:+ "__lte") =
        Some (if isinstance_DateTimeField (field fspec)
              then isoformat today +:+ " 23:59:59" else isoformat today)
    ∧ dom query = {[ field_path fspec +:+ "__gte";
                     field_path fspec +:+ "__lte" ]}
    ∧ size query = 2%nat.
Proof.
  intros Hc.
  destruct (customized_date_field_filter_result today fspec Hc)
    as (week & Hv & Ho & ->).
  eexists _, _, week. split; [done|]. split; [done|]. simpl.
  assert (field_path fspec +:+ "__gte" ≠ field_path fspec +:+ "__lte")
    by (by apply key_ne).
  repeat split; try done.
  - map_lookup.
  - map_lookup.
  - rewrite !dom_insert_L, dom_empty_L, (right_id_L ∅ (∪)).
    apply set_eq. intros k. rewrite !elem_of_union, !elem_of_singleton. tauto.
  - rewrite !map_size_insert_None, map_size_empty by map_lookup. done.
Qed.

(** C9.  For every filter spec, the handler returns [True], whatever the
    submitted parameters are, and sets [date_params] to exactly those
    submitted parameters whose key starts with the field path followed by
    two underscores, with their values. *)
Theorem date_params_subset today fspec :
  clock_ok today = true →
  ∃ fspec',
    customized_date_field_filter ugettext today fspec = Ok (true, fspec')
    ∧ field_generic fspec' = field_path fspec +:+ "__"
    ∧ ∀ k v, date_params fspec' !! k = Some v ↔
             params fspec !! k = Some v
             ∧ ∃ rest, k = field_path fspec +:+ "__" +:+ rest.
Proof.
  intros Hc.
  destruct (customized_date_field_filter_result today fspec Hc)
    as (week & _ & _ & ->).
  eexists. split; [done|]. split; [done|]. simpl. intros k v.
  rewrite dict_filter_items. simpl. rewrite startswith_spec.
  split; intros [? [rest ->]]; (split; [done|]); exists rest;
    by rewrite ?append_assoc.
Qed.

(** C6.  For every field, the links the handler emits are [Any date],
    which constrains nothing, followed by exactly four date ranges computed
    from the current date: today, the past seven days, this month and this
    year, each as the set of query parameters of its link. *)
Theorem four_date_ranges today fspec :
  clock_ok today = true →
  ∃ fspec' week,
    customized_date_field_filter ugettext today fspec = Ok (true, fspec')
    ∧ valid_date week = true
    ∧ toordinal week = toordinal today - 7
    ∧ links fspec' =
        [ (ugettext "Any date", ∅);
          (ugettext "Today",
           dict [ (field_path fspec +:+ "__year", str_int (year today));
                  (field_path fspec +:+ "__month", str_int (month today));
                  (field_path fspec +:+ "__day", str_int (day today)) ]);
          (ugettext "Past 7 days",
           dict [ (field_path fspec +:+ "__gte", isoformat week);
                  (field_path fspec +:+ "__lte",
                   if isinstance_DateTimeField (field fspec)
                   then isoformat today +:+ " 23:59:59" else isoformat today) ]);
          (ugettext "This month",
           dict [ (field_path fspec +:+ "__year", str_int (year today));
                  (field_path fspec +:+ "__month", str_int (month today)) ]);
          (ugettext "This year",
           dict [ (field_path fspec +:+ "__year", str_int (year today)) ]) ]
    ∧ length (filter (λ link, link.2 ≠ ∅) (links fspec')) = 4%nat.
Proof.
  intros Hc.
  destruct (customized_date_field_filter_result today fspec Hc)
    as (week & Hv & Ho & ->).
  eexists _, week. split; [done|]. split; [done|]. split; [done|].
  split; [done|]. simpl.
  rewrite filter_cons_False by (simpl; tauto).
  repeat (rewrite filter_cons_True by (simpl; apply insert_non_empty)).
  done.
Qed.

End DateFilterFacts.

(** C5.  [save_model] saves the object it is given with its author set to
    the requesting user when the object has no id (a new record), and with
    its author as it was when the object has an id (an existing record);
    nothing else of the object is changed before it is saved. *)
Theorem save_model_stamps_author {User DB : Type}
    (Model_save : DevMessage User → DB → DevMessage User * DB)
    (request : Request User) (obj : DevMessage User) (db : DB) :
  ∃ saved,
    save_model Model_save request obj db = Model_save saved db
    ∧ Admin.id saved = Admin.id obj
    ∧ title saved = title obj
    ∧ slug saved = slug obj
    ∧ author saved =
        match Admin.id obj with
        | None => Some (user request)
        | Some _ => author obj
        end.
Proof.
  exists (stamp_author request obj). split; [done|].
  unfold stamp_author. destruct obj as [[k|] a t s]; by simpl.
Qed.


Lemma today_link_constraints_witness :
  clock_ok Sample.today = true
  ∧ ∃ fspec' query,
      customized_date_field_filter (λ label, label) Sample.today Sample.fspec
      = Ok (true, fspec')
      ∧ links fspec' !! 1%nat = Some ("Today", query)
      ∧ query !! "ts__year" = Some "2010"
      ∧ query !! "ts__month" = Some "1"
      ∧ query !! "ts__day" = Some "5"
      ∧ dom query = {[ "ts__year"; "ts__month"; "ts__day" ]}
      ∧ size query = 3%nat.
Proof.
  split; [reflexivity|].
  apply (today_link_constraints (λ label, label) Sample.today Sample.fspec).
  reflexivity.
Defined.

Lemma past_7_days_link_constraints_witness :
  clock_ok Sample.today = true
  ∧ ∃ fspec' query week,
      customized_date_field_filter (λ label, label) Sample.today Sample.fspec
      = Ok (true, fspec')
      ∧ links fspec' !! 2%nat = Some ("Past 7 days", query)
      ∧ valid_date week = true
      ∧ toordinal week = toordinal Sample.today - 7
      ∧ query !! "ts__gte" = Some (isoformat week)
      ∧ query !! "ts__lte" = Some "2010-01-05 23:59:59"
      ∧ dom query = {[ "ts__gte"; "ts__lte" ]}
      ∧ size query = 2%nat.
Proof.
  split; [reflexivity|].
  apply (past_7_days_link_constraints (λ label, label) Sample.today
           Sample.fspec).
  reflexivity.
Defined.

Lemma date_params_subset_witness :
  clock_ok Sample.today = true
  ∧ ∃ fspec',
      customized_date_field_filter (λ label, label) Sample.today Sample.fspec
      = Ok (true, fspec')
      ∧ field_generic fspec' = "ts__"
      ∧ ∀ k v, date_params fspec' !! k = Some v ↔
               params Sample.fspec !! k = Some v
               ∧ ∃ rest, k = "ts" +:+ "__" +:+ rest.
Proof.
  split; [reflexivity|].
  apply (date_params_subset (λ label, label) Sample.today Sample.fspec).
  reflexivity.
Defined.

Lemma four_date_ranges_witness :
  clock_ok Sample.today = true
  ∧ ∃ fspec' week,
      customized_date_field_filter (λ label, label) Sample.today Sample.fspec
      = Ok (true, fspec')
      ∧ valid_date week = true
      ∧ toordinal week = toordinal Sample.today - 7
      ∧ links fspec' =
          [ ("Any date", ∅);
            ("Today",
             dict [ ("ts__year", "2010"); ("ts__month", "1");
                    ("ts__day", "5") ]);
            ("Past 7 days",
             dict [ ("ts__gte", isoformat week);
                    ("ts__lte", "2010-01-05 23:59:59") ]);
            ("This month",
             dict [ ("ts__year", "2010"); ("ts__month", "1") ]);
            ("This year", dict [ ("ts__year", "2010") ]) ]
      ∧ length (filter (λ link, link.2 ≠ ∅) (links fspec')) = 4%nat.
Proof.
  split; [reflexivity|].
  apply (four_date_ranges (λ label, label) Sample.today Sample.fspec).
  reflexivity.
Defined.

(** The handler on the sample filter spec, on 2010-01-05. *)
Example customized_date_field_filter_sample :
  (λ r, (r.1, map_to_list (date_params r.2),
         (λ link, (link.1, map_to_list link.2)) <$> links r.2))
    <$> customized_date_field_filter (λ label, label) Sample.today
          Sample.fspec
  = Ok (true, [("ts__gte", "2010-01-01")],
        [ ("Any date", []);
          ("Today", [("ts__month", "1"); ("ts__year", "2010");
                     ("ts__day", "5")]);
          ("Past 7 days", [("ts__gte", "2009-12-29");
                           ("ts__lte", "2010-01-05 23:59:59")]);
          ("This month", [("ts__month", "1"); ("ts__year", "2010")]);
          ("This year", [("ts__year", "2010")]) ]).
Proof. vm_compute. reflexivity. Qed.

End AdminFacts.

(** ** [helpers.py] *)

Module HelpersFacts.
Import DatetimeFacts Helpers FormSpec.

Section Propagation.
Context {Browser : Type}.
Variable selenium : string → list arg → Browser → result string * Browser.
Variable strptime : string → string → result datetime.

#[local] Abbreviation M := (Helpers.M (Browser:=Browser)).
#[local] Abbreviation World := (Helpers.World (Browser:=Browser)).
#[local] Abbreviation call := (Helpers.call selenium).
#[local] Abbreviation is_equal := (Helpers.is_equal strptime).
#[local] Abbreviation verify_item := (Helpers.verify_item selenium).
#[local] Abbreviation verify_field := (Helpers.verify_field selenium strptime).
#[local] Abbreviation verify_fields :=
  (Helpers.verify_fields selenium strptime).
#[local] Abbreviation verify_form := (Helpers.verify_form selenium strptime).
#[local] Abbreviation retrieve := (FormSpec.retrieve selenium).
#[local] Abbreviation retrieve_all := (FormSpec.retrieve_all selenium).
#[local] Abbreviation field_error := (FormSpec.field_error strptime).
#[local] Abbreviation verdicts := (FormSpec.verdicts strptime).

Lemma bind_run {A B} (m : M A) (k : A → M B) w :
  (m ≫= k) w =
  match m w with
  | (Ok a, w') => k a w'
  | (Raise e, w') => (Raise e, w')
  end.
Proof. done. Qed.

Lemma tracked_ret {A} (a : A) : tracked (mret a : M A).
Proof. intros w. exists []. split; [by rewrite app_nil_r|]. by constructor. Qed.

Lemma tracked_lift {A} (r : result A) : tracked (lift r : M A).
Proof. intros w. exists []. split; [by rewrite app_nil_r|]. by constructor. Qed.

Lemma tracked_raise {A} e : tracked (raise e : M A).
Proof. intros w. exists []. split; [by rewrite app_nil_r|]. by constructor. Qed.

Lemma tracked_sleep ms : tracked (sleep ms : M unit).
Proof.
  intros w. exists [Slept ms]. split; [done|].
  constructor. by repeat constructor.
Qed.

Lemma tracked_call meth args : tracked (call meth args).
Proof.
  intros w. exists [Called meth args (call meth args w).1].
  unfold call. destruct (selenium meth args (browser w)) as [[text|e] b]; simpl.
  - split; [done|]. constructor. by repeat constructor.
  - split; [done|]. by apply (faithful_raised []).
Qed.

Lemma faithful_Ok_clean {A} t (a : A) :
  faithful t (Ok a) → Forall (λ ev, driver_raised ev = None) t.
Proof. intros H. inversion H; subst. assumption. Qed.

Lemma faithful_app {A B} t1 t2 (a : A) (r : result B) :
  faithful t1 (Ok a) → faithful t2 r → faithful (t1 ++ t2) r.
Proof.
  intros H1%faithful_Ok_clean H2. destruct H2 as [t2 r H2|t2 meth args e H2].
  - constructor. by apply Forall_app.
  - rewrite app_assoc. apply faithful_raised. by apply Forall_app.
Qed.

Lemma faithful_Raise {A B} t e :
  faithful (A:=A) t (Raise e) → faithful (A:=B) t (Raise e).
Proof.
  inversion 1; subst; [by apply faithful_clean|].
  by apply faithful_raised.
Qed.

Lemma tracked_bind {A B} (m : M A) (k : A → M B) :
  tracked m → (∀ a, tracked (k a)) → tracked (m ≫= k).
Proof.
  intros Hm Hk w. rewrite bind_run.
  destruct (Hm w) as (t1 & Hl1 & Hf1).
  destruct (m w) as [[a|e] w1]; simpl in *.
  - destruct (Hk a w1) as (t2 & Hl2 & Hf2).
    exists (t1 ++ t2). split; [by rewrite Hl2, Hl1, app_assoc|].
    by eapply faithful_app.
  - exists t1. split; [done|]. by apply (faithful_Raise (A:=A)).
Qed.

Lemma tracked_foldM {A B} (body : B → A → M B) l :
  (∀ b x, tracked (body b x)) → ∀ b, tracked (foldM body b l).
Proof.
  intros Hbody. induction l as [|x l IH]; intros b; simpl.
  - apply tracked_ret.
  - apply tracked_bind; auto.
Qed.

Lemma tracked_for_each {A} (l : list A) (body : A → M unit) :
  (∀ x, tracked (body x)) → tracked (for_each l body).
Proof. intros H. apply tracked_foldM. auto. Qed.

Lemma tracked_if {A} (b : bool) (m1 m2 : M A) :
  tracked m1 → tracked m2 → tracked (if b then m1 else m2).
Proof. by destruct b. Qed.

Lemma tracked_propagates {A} (m : M A) : tracked m → propagates m.
Proof.
  intros Hm w. destruct (Hm w) as (t & Hl & Hf). exists t. split; [done|].
  intros i e Hi. destruct Hf as [t r Hc|t meth args e' Hc].
  - destruct (t !! i) as [ev|] eqn:Hev; [|done].
    rewrite Forall_forall in Hc. specialize (Hc ev).
    rewrite list_elem_of_lookup in Hc. simpl in Hi.
    rewrite Hc in Hi by eauto. done.
  - destruct (decide (i < length t)%nat) as [Hlt|Hge].
    + rewrite lookup_app_l in Hi by done.
      destruct (t !! i) as [ev|] eqn:Hev; [|done].
      rewrite Forall_forall in Hc. specialize (Hc ev).
      rewrite list_elem_of_lookup in Hc. simpl in Hi.
      rewrite Hc in Hi by eauto. done.
    + rewrite lookup_app_r in Hi by lia.
      destruct (i - length t)%nat as [|j] eqn:Hj; simpl in Hi; [|done].
      rewrite length_app. simpl. split; [lia|]. congruence.
Qed.


Lemma selected_item_xpath_format field i :
  format_named (Elements.controls_suggester_selected +:+ "[%(number)s]")
    [("field", field); ("number", str_int (Z.of_nat i + 1))]
  = Ok (selected_item_xpath field i).
Proof.
  unfold selected_item_xpath. generalize (str_int (Z.of_nat i + 1)). intros n.
  reflexivity.
Qed.

Lemma run_bind_Ok {A B} (m : M A) (k : A → M B) w a w1 :
  m w = (Ok a, w1) → (m ≫= k) w = k a w1.
Proof. intros H. by rewrite bind_run, H. Qed.

Lemma run_bind_Raise {A B} (m : M A) (k : A → M B) w e w1 :
  m w = (Raise e, w1) → (m ≫= k) w = (Raise e, w1).
Proof. intros H. by rewrite bind_run, H. Qed.

Lemma run_lift_bind {A B} (a : A) (k : A → M B) w :
  (lift (Ok a) ≫= k) w = k a w.
Proof. done. Qed.

Lemma run_ret {A} (a : A) (w : World) :
  (mret a : M A) w = (Ok a, w).
Proof. done. Qed.

Lemma mapM_cons_Ok {A B} (f : A → M B) x l w ys w' :
  mapM f (x :: l) w = (Ok ys, w') →
  ∃ y ys' w1, f x w = (Ok y, w1) ∧ mapM f l w1 = (Ok ys', w') ∧ ys = y :: ys'.
Proof.
  simpl. rewrite bind_run. destruct (f x w) as [[y|e] w1]; [|done].
  rewrite bind_run. destruct (mapM f l w1) as [[ys'|e] w2] eqn:Hm; [|done].
  unfold mret, M_ret. intros H. injection H as <- <-. by exists y, ys', w1.
Qed.

Lemma mismatched_cons x spec text texts :
  mismatched (x :: spec) (text :: texts) =
  if decide (text ≠ x) then text :: mismatched spec texts
  else mismatched spec texts.
Proof.
  unfold mismatched. simpl. rewrite filter_cons. simpl.
  by destruct (decide (text ≠ x)).
Qed.

Lemma last_cons_match {A B} (x : A) l (f : A → B) (e : B) :
  match last (x :: l) with Some t => f t | None => e end =
  match last l with Some t => f t | None => f x end.
Proof. rewrite last_cons. by destruct (last l). Qed.

Lemma verify_item_run field spec errors i x w text w1 :
  spec !! i = Some x →
  call "get_text" [AStr (selected_item_xpath field i)] w
    = (Ok text, w1) →
  verify_item field spec errors i w =
  (Ok (if decide (text ≠ x)
       then add_error errors field (PList spec) (PStr text)
       else errors), w1).
Proof.
  intros Hx Hcall. unfold verify_item.
  rewrite selected_item_xpath_format, run_lift_bind.
  rewrite (run_bind_Ok _ _ _ _ _ Hcall), Hx, run_lift_bind.
  done.
Qed.

Lemma verify_items_spec field spec k : ∀ i errors w ts w',
  (i + k = length spec)%nat →
  mapM (λ i, call "get_text" [AStr (selected_item_xpath field i)])
    (seq i k) w = (Ok ts, w') →
  foldM (verify_item field spec) errors (seq i k) w =
  (Ok (match last (mismatched (drop i spec) ts) with
       | Some text => add_error errors field (PList spec) (PStr text)
       | None => errors
       end), w').
Proof.
  induction k as [|k IH]; intros i errors w ts w' Hlen Hget.
  - simpl in *. injection Hget as <- <-.
    by destruct (drop i spec).
  - change (seq i (S k)) with (i :: seq (S i) k) in *.
    apply mapM_cons_Ok in Hget as (text & ts' & w1 & Hcall & Hrest & ->).
    destruct (lookup_lt_is_Some_2 spec i ltac:(lia)) as [x Hx].
    rewrite (drop_S _ _ _ Hx), mismatched_cons.
    cbn [foldM].
    rewrite (run_bind_Ok _ _ _ _ _ (verify_item_run _ _ errors _ _ _ _ _ Hx Hcall)).
    rewrite (IH (S i) _ w1 ts' w' ltac:(lia) Hrest).
    f_equal. f_equal.
    destruct (decide (text ≠ x)) as [Hne|Heq]; [|done].
    rewrite last_cons_match.
    destruct (last (mismatched (drop (S i) spec) ts')) as [t|]; [|done].
    unfold add_error. by rewrite insert_insert_eq.
Qed.


Lemma verify_field_spec item errors w ts w' oe :
  retrieve item w = (Ok ts, w') →
  field_error item.2 ts = Ok oe →
  verify_field errors item w
  = (Ok (record errors (item.1, oe)), w').
Proof.
  destruct item as [field [a|v]];
    unfold retrieve, verify_field, record, field_error; cbn [fst snd].
  - rewrite bind_run.
    destruct (call (value_function_name a) [AStr ("id_" +:+ field)] w)
      as [[text|e] w1] eqn:Hcall; [|done].
    rewrite run_ret. intros [= <- <-].
    rewrite (run_bind_Ok _ _ _ _ _ Hcall).
    destruct (is_equal a text) as [equal|e] eqn:Heq; [|done].
    intros [= <-]. rewrite run_lift_bind, run_ret.
    by destruct equal.
  - assert (Hscalar : ∀ spec, (∀ l, spec ≠ PList l) →
      (call "get_value" [AStr ("id_" +:+ field)] ≫= λ text, mret [text]) w
        = (Ok ts, w') →
      match ts with
      | [text] => Ok (if decide (PStr text ≠ spec)
                      then Some {| expected := spec; retrieved := PStr text |}
                      else None)
      | _ => Ok None
      end = Ok oe →
      (call "get_value" [AStr ("id_" +:+ field)] ≫= λ text,
         mret (if decide (PStr text ≠ spec)
               then add_error errors field spec (PStr text) else errors)) w
      = (Ok match oe with
            | Some entry => <[field:=entry]> errors
            | None => errors
            end, w')).
    { intros spec _. rewrite bind_run.
      destruct (call "get_value" [AStr ("id_" +:+ field)] w)
        as [[text|e] w1] eqn:Hcall; [|done].
      rewrite run_ret. intros [= <- <-] [= <-].
      rewrite (run_bind_Ok _ _ _ _ _ Hcall), run_ret.
      by destruct (decide (PStr text ≠ spec)). }
    destruct v as [s|t|l]; [by apply Hscalar..|].
    intros Hget [= <-].
    rewrite (verify_items_spec field l (length l) 0 errors w ts w' eq_refl Hget).
    rewrite drop_0. by destruct (last (mismatched l ts)).
Qed.

Lemma verify_fields_spec data : ∀ errors w texts w' vs,
  retrieve_all data w = (Ok texts, w') →
  verdicts data texts = Ok vs →
  verify_fields errors data w
  = (Ok (foldl record errors vs), w').
Proof.
  unfold verify_fields, retrieve_all.
  induction data as [|item data IH]; intros errors w texts w' vs Hget Hvs.
  - simpl in *. injection Hget as <- <-. by injection Hvs as <-.
  - apply mapM_cons_Ok in Hget as (ts & texts' & w1 & Hitem & Hrest & ->).
    simpl in Hvs.
    destruct (field_error item.2 ts) as [oe|e] eqn:Hoe; [|done].
    destruct (verdicts data texts') as [rest|e] eqn:Hrest'; [|done].
    simpl in Hvs. injection Hvs as <-.
    cbn [foldM].
    rewrite (run_bind_Ok _ _ _ _ _ (verify_field_spec _ errors _ _ _ _ Hitem Hoe)).
    by rewrite (IH _ _ _ _ _ Hrest Hrest').
Qed.

Lemma mismatches_fst vs f : f ∈ (mismatches vs).*1 → f ∈ vs.*1.
Proof.
  unfold mismatches. rewrite !list_elem_of_fmap.
  intros ([f' en] & -> & ([f'' oe] & Hin & Hv)%list_elem_of_omap).
  simpl in *. destruct oe as [en'|]; [|done]. injection Hv as -> ->.
  by exists (f', Some en).
Qed.

Lemma mismatches_NoDup vs : NoDup vs.*1 → NoDup (mismatches vs).*1.
Proof.
  induction vs as [|[f [en|]] vs IH]; simpl; [done|..].
  - intros [Hf Hnd]%NoDup_cons. apply NoDup_cons. split; [|by apply IH].
    intros Hin. by apply Hf, mismatches_fst.
  - intros [Hf Hnd]%NoDup_cons. by apply IH.
Qed.

Lemma foldl_record vs : NoDup vs.*1 → ∀ errors,
  foldl record errors vs = list_to_map (mismatches vs) ∪ errors.
Proof.
  induction vs as [|[f [en|]] vs IH]; simpl; intros Hnd errors.
  - by rewrite (left_id_L ∅ (∪)).
  - apply NoDup_cons in Hnd as [Hf Hnd]. rewrite (IH Hnd).
    unfold record. simpl. rewrite <- insert_union_l.
    rewrite insert_union_r; [done|].
    apply not_elem_of_list_to_map_1. intros Hin. by apply Hf, mismatches_fst.
  - apply NoDup_cons in Hnd as [Hf Hnd]. by rewrite (IH Hnd).
Qed.

Lemma verdicts_fst data : ∀ texts vs,
  verdicts data texts = Ok vs → vs.*1 = take (length texts) data.*1.
Proof.
  induction data as [|item data IH]; intros [|ts texts] vs; simpl;
    try (by intros [= <-]).
  destruct (field_error item.2 ts) as [oe|e]; [|done]. simpl.
  destruct (verdicts data texts) as [rest|e] eqn:Hrest; [|done]. simpl.
  intros [= <-]. simpl. f_equal. by apply IH.
Qed.

Lemma verdicts_NoDup data texts vs :
  NoDup data.*1 → verdicts data texts = Ok vs → NoDup vs.*1.
Proof.
  intros Hnd ->%verdicts_fst. eapply sublist_NoDup; [done|apply sublist_take].
Qed.

Lemma verdicts_lookup data : ∀ texts vs i f spec ts,
  verdicts data texts = Ok vs →
  data !! i = Some (f, spec) → texts !! i = Some ts →
  ∃ oe, field_error spec ts = Ok oe ∧ vs !! i = Some (f, oe).
Proof.
  induction data as [|item data IH]; intros [|ts' texts] vs i f spec ts;
    simpl; try done.
  destruct (field_error item.2 ts') as [oe|e] eqn:Hoe; [|done]. simpl.
  destruct (verdicts data texts) as [rest|e] eqn:Hrest; [|done]. simpl.
  intros [= <-]. destruct i as [|i]; simpl.
  - intros [= ->] [= ->]. eauto.
  - by apply IH.
Qed.

(** The errors collected by the loop of [verify_form]. *)
Lemma verify_fields_errors data w texts w' vs :
  NoDup data.*1 →
  retrieve_all data w = (Ok texts, w') →
  verdicts data texts = Ok vs →
  verify_fields ∅ data w
  = (Ok (list_to_map (mismatches vs)), w').
Proof.
  intros Hnd Hget Hvs.
  rewrite (verify_fields_spec _ _ _ _ _ _ Hget Hvs).
  rewrite foldl_record by eauto using verdicts_NoDup.
  by rewrite (right_id_L ∅ (∪)).
Qed.

Lemma error_messages_perm vs :
  NoDup vs.*1 →
  error_messages (list_to_map (mismatches vs))
  ≡ₚ (λ fe, format_error fe.1 fe.2) <$> mismatches vs.
Proof.
  intros Hnd. unfold error_messages.
  by rewrite map_to_list_to_map by by apply mismatches_NoDup.
Qed.

Lemma verify_form_run data w errors w' :
  verify_fields ∅ data w = (Ok errors, w') →
  verify_form data w =
  (if decide (errors = ∅) then Ok tt
   else Raise (AssertionError (get_formatted_form_errors errors)), w').
Proof.
  intros H. unfold verify_form. rewrite (run_bind_Ok _ _ _ _ _ H).
  destruct (decide (errors = ∅)) as [->|Hne].
  - by rewrite map_size_empty.
  - apply map_size_non_empty_iff in Hne.
    by destruct (decide (0 < size errors)%nat); [|lia].
Qed.

Lemma list_to_map_nil_iff {A} (l : list (string * A)) :
  (list_to_map l : gmap string A) = ∅ ↔ l = [].
Proof.
  split; [|by intros ->]. destruct l as [|[k v] l]; [done|].
  simpl. intros H. by apply insert_non_empty in H.
Qed.


(** *** Exceptions of the client *)

Ltac track :=
  repeat first
    [ apply tracked_bind | apply tracked_call | apply tracked_ret
    | apply tracked_lift | apply tracked_raise | apply tracked_sleep
    | apply tracked_foldM | apply tracked_for_each | intros ].

Lemma tracked_login : tracked (login selenium).
Proof. unfold login. track. Qed.

Lemma tracked_logout : tracked (logout selenium).
Proof. unfold logout. track. Qed.

Lemma tracked_fill_fields data : tracked (fill_fields selenium data).
Proof. unfold fill_fields. track. Qed.

Lemma tracked_fill_suggest_fields data :
  tracked (fill_suggest_fields selenium data).
Proof. unfold fill_suggest_fields. track. Qed.

Lemma tracked_fill_calendar_fields data :
  tracked (fill_calendar_fields selenium data).
Proof. unfold fill_calendar_fields. track. Qed.

Lemma tracked_fill_using_lookup data :
  tracked (fill_using_lookup selenium data).
Proof. unfold fill_using_lookup. track. Qed.

Lemma tracked_save_form : tracked (save_form selenium).
Proof. unfold save_form. track. Qed.

Lemma tracked_verify_field errors item : tracked (verify_field errors item).
Proof.
  unfold Helpers.verify_field. destruct item as [field [a|[s|t|l]]];
    cbn [fst snd]; track.
Qed.

Lemma tracked_verify_form data : tracked (verify_form data).
Proof.
  unfold Helpers.verify_form, Helpers.verify_fields. apply tracked_bind.
  - apply tracked_foldM. intros. apply tracked_verify_field.
  - intros errors. case_decide; track.
Qed.

(** C7.  An exception raised by a call of the Selenium client during
    [verify_form], [fill_fields], [login] or any other helper method is
    propagated unmodified: in the trace of the method a call that raised is
    the last event (nothing is retried and nothing follows it), and the
    method ends by raising that very exception (it is neither caught nor
    wrapped). *)
Theorem driver_exceptions_propagate
    (data : list (string * field_spec)) (fields lookups : list (string * string))
    (suggest_data : list (string * list string))
    (calendar_data : list (string * gmap string Z)) :
  propagates (verify_form data)
  ∧ propagates (fill_fields selenium fields)
  ∧ propagates (login selenium)
  ∧ propagates (logout selenium)
  ∧ propagates (fill_suggest_fields selenium suggest_data)
  ∧ propagates (fill_calendar_fields selenium calendar_data)
  ∧ propagates (fill_using_lookup selenium lookups)
  ∧ propagates (save_form selenium).
Proof.
  repeat split; apply tracked_propagates;
    auto using tracked_verify_form, tracked_fill_fields, tracked_login,
      tracked_logout, tracked_fill_suggest_fields,
      tracked_fill_calendar_fields, tracked_fill_using_lookup,
      tracked_save_form.
Qed.

(** *** [DateTimeAssert.is_equal] *)

(** The tolerance [__init__] stores. *)
Lemma DateTimeAssert_init_delta expected vfn fmt od :
  ∃ f g, DateTimeAssert_init expected vfn fmt od =
         DateTimeAssert expected f g
           (match od with
            | Some d => if decide (d = 0) then timedelta_minutes 1 else d
            | None => timedelta_minutes 1
            end).
Proof.
  unfold DateTimeAssert_init. eexists _, _. f_equal.
  destruct od as [d|]; [|done]. unfold td_truthy.
  by destruct (Z.eqb_spec d 0), (decide (d = 0)).
Qed.

(** The comparison is the absolute difference against the stored
    tolerance. *)
Lemma is_equal_abs_difference expected vfn fmt delta text t :
  valid_datetime expected = true →
  strptime text fmt = Ok t → valid_datetime t = true →
  is_equal (DateTimeAssert expected vfn fmt delta) text
  = Ok (bool_decide (Z.abs (to_us t - to_us expected) ≤ delta)).
Proof.
  intros He Ht Hv. unfold Helpers.is_equal. rewrite Ht.
  cbn [mbind result_bind].
  pose proof (datetime_gt_spec t expected Hv He) as Hgt.
  unfold datetime_sub, td_le.
  destruct (datetime_gt t expected); f_equal.
  - assert (to_us expected < to_us t) by by apply Hgt.
    destruct (Z.leb_spec (to_us t - to_us expected) delta);
      [rewrite bool_decide_eq_true_2 | rewrite bool_decide_eq_false_2]; lia.
  - assert (¬ to_us expected < to_us t) by (intros ?%Hgt; done).
    destruct (Z.leb_spec (to_us expected - to_us t) delta);
      [rewrite bool_decide_eq_true_2 | rewrite bool_decide_eq_false_2]; lia.
Qed.

(** X13.  The comparison is symmetric: comparing [a] with the rendering
    of [b] and [b] with the rendering of [a] gives the same answer,
    whichever of the two is the earlier. *)
Lemma is_equal_symmetric a b vfn fmt delta text_a text_b :
  valid_datetime a = true → valid_datetime b = true →
  strptime text_a fmt = Ok a → strptime text_b fmt = Ok b →
  is_equal (DateTimeAssert a vfn fmt delta) text_b
  = is_equal (DateTimeAssert b vfn fmt delta) text_a.
Proof.
  intros Ha Hb Hta Htb.
  rewrite (is_equal_abs_difference a vfn fmt delta text_b b Ha Htb Hb).
  rewrite (is_equal_abs_difference b vfn fmt delta text_a a Hb Hta Ha).
  f_equal. apply bool_decide_ext. lia.
Qed.

(** X14.  With no tolerance supplied, or a tolerance other than zero, the
    assertion holds exactly when the two times are at most the tolerance
    (one minute by default) apart. *)
Lemma is_equal_within_delta expected vfn fmt od text t :
  valid_datetime expected = true →
  strptime text (default "%Y-%m-%d %H:%M" fmt) = Ok t →
  valid_datetime t = true →
  od ≠ Some 0 →
  is_equal (DateTimeAssert_init expected vfn fmt od) text
  = Ok (bool_decide (Z.abs (to_us t - to_us expected)
                     ≤ default (timedelta_minutes 1) od)).
Proof.
  intros He Ht Hv Hod. unfold DateTimeAssert_init.
  rewrite (is_equal_abs_difference _ _ _ _ _ _ He Ht Hv).
  destruct od as [d|]; [|done]. unfold td_truthy. simpl.
  destruct (Z.eqb_spec d 0) as [->|]; [done|]. done.
Qed.

(** *** [verify_form] *)

(** The outcome of [verify_form] in terms of the error entries of the
    fields. *)
Lemma verify_form_outcome data w texts w' vs :
  NoDup data.*1 →
  retrieve_all data w = (Ok texts, w') →
  verdicts data texts = Ok vs →
  ∃ lines,
    lines ≡ₚ (λ fe, format_error fe.1 fe.2) <$> mismatches vs
    ∧ verify_form data w =
      (if decide (mismatches vs = []) then Ok tt
       else Raise (AssertionError (join (String "010" "") lines)), w').
Proof.
  intros Hnd Hget Hvs.
  exists (error_messages (list_to_map (mismatches vs))). split.
  - apply error_messages_perm. eauto using verdicts_NoDup.
  - rewrite (verify_form_run _ _ _ _
               (verify_fields_errors _ _ _ _ _ Hnd Hget Hvs)).
    destruct (decide (mismatches vs = [])) as [->|Hne]; [done|].
    by rewrite decide_False by by rewrite list_to_map_nil_iff.
Qed.

(** C10.  The errors are keyed by the field name.  For an expected list
    of which several items differ, the entry of the field holds the whole
    expected list and the retrieved text of the last item that differs;
    the message has one line for each field in error, never more. *)
Theorem list_field_error_keeps_last_mismatch data w texts w' vs :
  NoDup data.*1 →
  retrieve_all data w = (Ok texts, w') →
  verdicts data texts = Ok vs →
  ∃ errors,
    verify_fields ∅ data w = (Ok errors, w')
    ∧ (∀ i field spec ts text,
         data !! i = Some (field, Plain (PList spec)) →
         texts !! i = Some ts →
         last (mismatched spec ts) = Some text →
         errors !! field
         = Some {| expected := PList spec; retrieved := PStr text |})
    ∧ dom errors = list_to_set (mismatches vs).*1
    ∧ length (error_messages errors) = length (mismatches vs)
    ∧ verify_form data w =
      (if decide (mismatches vs = []) then Ok tt
       else Raise (AssertionError
                     (join (String "010" "") (error_messages errors))), w').
Proof.
  intros Hnd Hget Hvs.
  pose proof (verdicts_NoDup _ _ _ Hnd Hvs) as Hvnd.
  exists (list_to_map (mismatches vs)).
  split; [exact (verify_fields_errors _ _ _ _ _ Hnd Hget Hvs)|].
  split; [|split; [|split]].
  - intros i field spec ts text Hi Hts Hlast.
    destruct (verdicts_lookup _ _ _ _ _ _ _ Hvs Hi Hts) as (oe & Hoe & Hv).
    unfold FormSpec.field_error in Hoe. rewrite Hlast in Hoe.
    injection Hoe as <-.
    apply elem_of_list_to_map_1; [by apply mismatches_NoDup|].
    unfold mismatches. apply list_elem_of_omap.
    eexists. split; [by eapply list_elem_of_lookup_2|]. done.
  - by rewrite dom_list_to_map_L.
  - rewrite (error_messages_perm _ Hvnd). by rewrite length_fmap.
  - rewrite (verify_form_run _ _ _ _
               (verify_fields_errors _ _ _ _ _ Hnd Hget Hvs)).
    destruct (decide (mismatches vs = [])) as [->|Hne]; [done|].
    by rewrite decide_False by by rewrite list_to_map_nil_iff.
Qed.

Lemma foldM_app_run {A B} (body : B → A → M B) l1 l2 : ∀ b w b1 w1,
  foldM body b l1 w = (Ok b1, w1) →
  foldM body b (l1 ++ l2) w = foldM body b1 l2 w1.
Proof.
  induction l1 as [|x l1 IH]; intros b w b1 w1; simpl.
  - by intros [= <- <-].
  - rewrite !bind_run. destruct (body b x w) as [[b'|e] w']; [|done].
    apply IH.
Qed.

(** C8.  When the retrieved text does not parse under [date_format],
    [DateTimeAssert.is_equal] raises the exception of [strptime] instead
    of returning false; in [verify_form] that exception ends the
    verification at this field: it is the outcome, whatever errors the
    fields before it have accumulated, and the fields after it are not
    looked at. *)
Theorem unparseable_datetime_aborts
    expected vfn fmt delta text exn pre field post w errors w1 w2 :
  strptime text fmt = Raise exn →
  verify_fields ∅ pre w = (Ok errors, w1) →
  call vfn [AStr ("id_" +:+ field)] w1 = (Ok text, w2) →
  is_equal (DateTimeAssert expected vfn fmt delta) text = Raise exn
  ∧ verify_form
      (pre ++ (field, Assert (DateTimeAssert expected vfn fmt delta)) :: post)
      w
    = (Raise exn, w2).
Proof.
  intros Hparse Hpre Hcall.
  assert (Heq : is_equal (DateTimeAssert expected vfn fmt delta) text
                = Raise exn).
  { unfold Helpers.is_equal. by rewrite Hparse. }
  split; [done|].
  unfold Helpers.verify_form, Helpers.verify_fields.
  apply run_bind_Raise. rewrite (foldM_app_run _ _ _ _ _ _ _ Hpre).
  cbn [foldM]. apply run_bind_Raise.
  unfold Helpers.verify_field. cbn [fst snd value_function_name].
  rewrite (run_bind_Ok _ _ _ _ _ Hcall), Heq. done.
Qed.

End Propagation.

(** *** Examples *)

Example verify_form_sample :
  (verify_form Sample.selenium Sample.strptime Sample.data
     (Sample.start Sample.page)).1
  = Raise (AssertionError
      ("Form validation for field title was expecting Hello, but got Hullo"
       +:+ String "010"
             "Form validation for field tags was expecting abc, but got z")).
Proof. vm_compute. reflexivity. Qed.

Lemma list_field_error_keeps_last_mismatch_witness :
  mismatched ["a"; "b"; "c"] ["x"; "b"; "z"] = ["x"; "z"]
  ∧ ∃ errors,
      verify_fields Sample.selenium Sample.strptime ∅ Sample.data
        (Sample.start Sample.page)
      = (Ok errors,
         (retrieve_all Sample.selenium Sample.data
            (Sample.start Sample.page)).2)
      ∧ (∀ i field spec ts text,
           Sample.data !! i = Some (field, Plain (PList spec)) →
           Sample.texts !! i = Some ts →
           last (mismatched spec ts) = Some text →
           errors !! field
           = Some {| expected := PList spec; retrieved := PStr text |})
      ∧ dom errors = list_to_set (mismatches Sample.vs).*1
      ∧ length (error_messages errors) = length (mismatches Sample.vs)
      ∧ verify_form Sample.selenium Sample.strptime Sample.data
          (Sample.start Sample.page)
        = (if decide (mismatches Sample.vs = []) then Ok tt
           else Raise (AssertionError
                         (join (String "010" "") (error_messages errors))),
           (retrieve_all Sample.selenium Sample.data
              (Sample.start Sample.page)).2).
Proof.
  split; [by vm_compute|].
  apply (list_field_error_keeps_last_mismatch Sample.selenium Sample.strptime
           Sample.data (Sample.start Sample.page) Sample.texts _ Sample.vs);
    [apply (bool_decide_unpack _); vm_compute; exact I
    | vm_compute; reflexivity..].
Defined.

Lemma unparseable_datetime_aborts_witness :
  is_equal Sample.strptime
    (DateTimeAssert Sample.noon "get_value" "%Y-%m-%d %H:%M"
       (timedelta_minutes 1)) "yesterday"
  = Raise (ValueError "time data does not match format")
  ∧ verify_form Sample.selenium Sample.strptime
      ([("title", Plain (PStr "Hello"))]
       ++ ("publish_from",
           Assert (DateTimeAssert Sample.noon "get_value" "%Y-%m-%d %H:%M"
                     (timedelta_minutes 1)))
          :: [("slug", Plain (PStr "other"))])
      (Sample.start Sample.stale_page)
    = (Raise (ValueError "time data does not match format"),
       {| browser := Sample.stale_page;
          log := [ Called "get_value" [AStr "id_title"] (Ok "Hullo");
                   Called "get_value" [AStr "id_publish_from"]
                     (Ok "yesterday") ] |}).
Proof.
  apply (unparseable_datetime_aborts Sample.selenium Sample.strptime
           Sample.noon "get_value" "%Y-%m-%d %H:%M" (timedelta_minutes 1)
           "yesterday" (ValueError "time data does not match format")
           [("title", Plain (PStr "Hello"))] "publish_from"
           [("slug", Plain (PStr "other"))]
           (Sample.start Sample.stale_page)
           {[ "title" := {| expected := PStr "Hello";
                            retrieved := PStr "Hullo" |} ]}
           {| browser := Sample.stale_page;
              log := [ Called "get_value" [AStr "id_title"] (Ok "Hullo") ] |});
    vm_compute; reflexivity.
Defined.

(** C1.  A tolerance of zero is replaced by the default of one minute:
    with [allowed_delta=timedelta(0)] and an expected time of 12:00:00, the
    retrieved text of 12:01 is accepted although the two times are sixty
    seconds apart, more than the tolerance supplied. *)
Theorem zero_delta_accepts_one_minute :
  let spec :=
    DateTimeAssert_init Sample.noon None None (Some (timedelta_seconds 0)) in
  let retrieved := DateTime (Date 2010 1 1) 12 1 0 0 in
  Sample.strptime "2010-01-01 12:01" "%Y-%m-%d %H:%M" = Ok retrieved
  ∧ Z.abs (to_us retrieved - to_us Sample.noon) = timedelta_seconds 60
  ∧ ¬ (timedelta_seconds 60 ≤ timedelta_seconds 0)
  ∧ spec = DateTimeAssert Sample.noon "get_value" "%Y-%m-%d %H:%M"
             (timedelta_minutes 1)
  ∧ is_equal Sample.strptime spec "2010-01-01 12:01" = Ok true.
Proof. by vm_compute. Qed.

End HelpersFacts.

(** ** More on [admin.py] *)

Module AdminExtra.
Import DatetimeFacts Admin AdminFacts TraceSpec.

Ltac lookup_step :=
  repeat first
    [ rewrite lookup_insert_eq
    | rewrite lookup_insert_ne by congruence
    | rewrite lookup_empty ];
  try done.

Lemma week_before_ordinal d :
  valid_date d = true → 8 ≤ toordinal d →
  valid_date (week_before d) = true
  ∧ toordinal (week_before d) = toordinal d - 7.
Proof.
  intros Hv Ho. pose proof Hv as (Hy & Hm & Hd)%valid_date_spec.
  unfold week_before.
  destruct (Z.ltb_spec 7 (day d)) as [Hd7|Hd7].
  { split; [apply valid_date_spec; simpl; lia | unfold toordinal; simpl; lia]. }
  destruct (Z.ltb_spec 1 (month d)) as [Hm1|Hm1].
  { pose proof (days_in_month_bounds (year d) (month d - 1) ltac:(lia)).
    split; [apply valid_date_spec; simpl; lia |].
    unfold toordinal; simpl.
    pose proof (days_before_month_succ (year d) (month d - 1) ltac:(lia)) as E.
    replace (month d - 1 + 1) with (month d) in E by lia. lia. }
  assert (month d = 1) as Em by lia.
  assert (year d ≠ 1) as Hy1.
  { intros Ey. revert Ho. unfold toordinal. rewrite Ey, Em.
    change (days_before_year 1 + days_before_month 1 1) with 0. lia. }
  split; [apply valid_date_spec; simpl; lia |].
  unfold toordinal; simpl. rewrite Em.
  pose proof (days_before_year_succ (year d - 1)) as E.
  replace (year d - 1 + 1) with (year d) in E by lia.
  pose proof (days_before_month_12 (year d - 1)).
  change (days_before_month (year d) 1)
    with (0 + (if (2 <? 1) && is_leap (year d) then 1 else 0)).
  simpl. lia.
Qed.

Section HandlerExtra.
Variable ugettext : string → string.

(** X1.  The lower bound of [Past 7 days] follows the calendar rule: the
    same month seven days earlier when the day is after the 7th, otherwise
    the matching day at the end of the month before (December of the year
    before, in January). *)
Theorem past_7_days_lower_bound today fspec :
  clock_ok today = true →
  ∃ fspec' query,
    customized_date_field_filter ugettext today fspec = Ok (true, fspec')
    ∧ links fspec' !! 2%nat = Some (ugettext "Past 7 days", query)
    ∧ query !! (field_path fspec +:+ "__gte")
      = Some (isoformat (week_before today)).
Proof.
  intros Hc. pose proof Hc as [Hv Ho]%clock_ok_spec.
  destruct (customized_date_field_filter_result ugettext today fspec Hc)
    as (week & Hvw & Hw & ->).
  change (toordinal (Date 1900 1 8)) with 693603 in Ho.
  destruct (week_before_ordinal today Hv ltac:(lia)) as [Hvb Hb].
  assert (week = week_before today) as ->
    by (apply toordinal_inj; [done..|lia]).
  eexists _, _. split; [done|]. split; [done|]. simpl.
  assert (field_path fspec +:+ "__gte" ≠ field_path fspec +:+ "__lte")
    by (by apply key_ne).
  lookup_step.
Qed.

(** X2.  The ranges nest: the constraints of [This year] are among those
    of [This month], which are among those of [Today]. *)
Theorem date_ranges_nest today fspec :
  clock_ok today = true →
  ∃ fspec' q_today q_month q_year,
    customized_date_field_filter ugettext today fspec = Ok (true, fspec')
    ∧ links fspec' !! 1%nat = Some (ugettext "Today", q_today)
    ∧ links fspec' !! 3%nat = Some (ugettext "This month", q_month)
    ∧ links fspec' !! 4%nat = Some (ugettext "This year", q_year)
    ∧ q_year ⊆ q_month ∧ q_month ⊆ q_today.
Proof.
  intros Hc.
  destruct (customized_date_field_filter_result ugettext today fspec Hc)
    as (week & _ & _ & ->).
  eexists _, _, _, _. repeat (split; [done|]). simpl.
  assert (field_path fspec +:+ "__year" ≠ field_path fspec +:+ "__month")
    by (by apply key_ne).
  assert (field_path fspec +:+ "__year" ≠ field_path fspec +:+ "__day")
    by (by apply key_ne).
  assert (field_path fspec +:+ "__month" ≠ field_path fspec +:+ "__day")
    by (by apply key_ne).
  split; apply insert_subseteq; lookup_step.
Qed.

(** X3.  The handler only depends on the submitted parameters, the field
    path and the field: applied to the filter spec it has produced, at the
    same date, it produces that filter spec again. *)
Theorem customized_date_field_filter_idempotent today fspec r fspec' :
  customized_date_field_filter ugettext today fspec = Ok (r, fspec') →
  customized_date_field_filter ugettext today fspec' = Ok (r, fspec').
Proof.
  unfold customized_date_field_filter.
  destruct (date_sub today (timedelta_days 7)) as [week|e]; [|done].
  cbn [mbind result_bind].
  destruct (if isinstance_DateTimeField (field fspec)
            then a ← date_strftime today "%Y-%m-%d 23:59:59";
                 if str_truthy a then Ok a
                 else date_strftime today "%Y-%m-%d"
            else date_strftime today "%Y-%m-%d") as [today_str|e] eqn:Ht;
    [|done].
  cbn [mbind result_bind].
  destruct (date_strftime week "%Y-%m-%d") as [week_str|e] eqn:Hw; [|done].
  cbn [mbind result_bind]. intros [= <- <-].
  cbn [field params field_path]. rewrite Ht.
  cbn [mbind result_bind]. done.
Qed.

End HandlerExtra.

Lemma past_7_days_lower_bound_witness :
  clock_ok Sample.today = true
  ∧ week_before Sample.today = Date 2009 12 29
  ∧ ∃ fspec' query,
      customized_date_field_filter (λ label, label) Sample.today Sample.fspec
      = Ok (true, fspec')
      ∧ links fspec' !! 2%nat = Some ("Past 7 days", query)
      ∧ query !! "ts__gte" = Some (isoformat (week_before Sample.today)).
Proof.
  split; [reflexivity|]. split; [reflexivity|].
  apply (past_7_days_lower_bound (λ label, label) Sample.today Sample.fspec).
  reflexivity.
Defined.

Lemma date_ranges_nest_witness :
  clock_ok Sample.today = true
  ∧ ∃ fspec' q_today q_month q_year,
      customized_date_field_filter (λ label, label) Sample.today Sample.fspec
      = Ok (true, fspec')
      ∧ links fspec' !! 1%nat = Some ("Today", q_today)
      ∧ links fspec' !! 3%nat = Some ("This month", q_month)
      ∧ links fspec' !! 4%nat = Some ("This year", q_year)
      ∧ q_year ⊆ q_month ∧ q_month ⊆ q_today.
Proof.
  split; [reflexivity|].
  apply (date_ranges_nest (λ label, label) Sample.today Sample.fspec).
  reflexivity.
Defined.

Lemma customized_date_field_filter_idempotent_witness :
  ∃ fspec',
    customized_date_field_filter (λ label, label) Sample.today Sample.fspec
    = Ok (true, fspec')
    ∧ customized_date_field_filter (λ label, label) Sample.today fspec'
      = Ok (true, fspec').
Proof.
  eexists. split; [vm_compute; reflexivity|].
  apply (customized_date_field_filter_idempotent (λ label, label)
           Sample.today Sample.fspec).
  vm_compute. reflexivity.
Defined.

(** X4.  Once an object has been saved by a store that gives saved
    objects a key and leaves their author alone, a later [save_model] on
    behalf of another user keeps the author: the author of a record is the
    user of its first save. *)
Theorem first_save_decides_author {User DB : Type}
    (Model_save : DevMessage User → DB → DevMessage User * DB)
    (first later : Request User) (obj : DevMessage User) (db : DB) :
  (∀ o d, Admin.id (Model_save o d).1 ≠ None) →
  (∀ o d, author (Model_save o d).1 = author o) →
  Admin.id obj = None →
  author (save_model Model_save later
            (save_model Model_save first obj db).1
            (save_model Model_save first obj db).2).1
  = Some (user first).
Proof.
  intros Hid Hauthor Hnew. unfold save_model.
  rewrite Hauthor.
  set (saved := (Model_save (stamp_author first obj) db).1).
  assert (author saved = Some (user first)) as Ha.
  { unfold saved. rewrite Hauthor. unfold stamp_author. by rewrite Hnew. }
  assert (Admin.id saved ≠ None) as Hs by apply Hid.
  unfold stamp_author. destruct (Admin.id saved); [done|done].
Qed.

Lemma first_save_decides_author_witness :
  author (save_model SampleStore.Model_save {| user := "robin" |}
            (save_model SampleStore.Model_save {| user := "kim" |}
               SampleStore.draft 7%positive).1
            (save_model SampleStore.Model_save {| user := "kim" |}
               SampleStore.draft 7%positive).2).1
  = Some "kim".
Proof.
  apply (first_save_decides_author SampleStore.Model_save
           {| user := "kim" |} {| user := "robin" |} SampleStore.draft
           7%positive).
  - intros [[k|] a t s] d; done.
  - intros [[k|] a t s] d; done.
  - reflexivity.
Defined.

End AdminExtra.

(** ** More on [helpers.py] *)

Module HelpersExtra.
Import DatetimeFacts Helpers FormSpec HelpersFacts TraceSpec MessageSpec.

Section HelperExtra.
Context {Browser : Type}.
Variable selenium : string → list arg → Browser → result string * Browser.
Variable strptime : string → string → result datetime.

#[local] Abbreviation M := (Helpers.M (Browser:=Browser)).
#[local] Abbreviation World := (Helpers.World (Browser:=Browser)).
#[local] Abbreviation call := (Helpers.call selenium).
#[local] Abbreviation is_equal := (Helpers.is_equal strptime).
#[local] Abbreviation verify_item := (Helpers.verify_item selenium).
#[local] Abbreviation verify_field := (Helpers.verify_field selenium strptime).
#[local] Abbreviation verify_form := (Helpers.verify_form selenium strptime).

(** *** The tolerance of [DateTimeAssert] *)

(** X5.  For a text that parses, [DateTimeAssert.is_equal] never raises:
    it returns true exactly when the retrieved and the expected time are
    at most the stored [allowed_delta] apart, and false exactly when they
    are further apart. *)
Theorem tolerance_decides expected vfn fmt delta text t :
  valid_datetime expected = true →
  strptime text fmt = Ok t → valid_datetime t = true →
  (is_equal (DateTimeAssert expected vfn fmt delta) text = Ok true
   ↔ Z.abs (to_us t - to_us expected) ≤ delta)
  ∧ (is_equal (DateTimeAssert expected vfn fmt delta) text = Ok false
     ↔ delta < Z.abs (to_us t - to_us expected)).
Proof.
  intros He Ht Hv.
  rewrite (is_equal_abs_difference strptime _ _ _ _ _ _ He Ht Hv).
  destruct (decide (Z.abs (to_us t - to_us expected) ≤ delta)) as [Hle|Hgt].
  - rewrite bool_decide_eq_true_2 by done. split; split; try done; lia.
  - rewrite bool_decide_eq_false_2 by done. split; split; try done; lia.
Qed.

(** X6.  With a negative tolerance no text is accepted. *)
Theorem negative_tolerance_never_matches expected vfn fmt delta text t :
  valid_datetime expected = true →
  strptime text fmt = Ok t → valid_datetime t = true →
  delta < 0 →
  is_equal (DateTimeAssert expected vfn fmt delta) text = Ok false.
Proof.
  intros He Ht Hv Hneg.
  rewrite (is_equal_abs_difference strptime _ _ _ _ _ _ He Ht Hv).
  rewrite bool_decide_eq_false_2; [done|lia].
Qed.

(** *** [FormAssertSpec] against a plain value *)

(** X7.  A [FormAssertSpec] built with its defaults around a text or a
    datetime is verified exactly like that value given plainly: the same
    call, the same comparison, the same error entry. *)
Theorem default_assert_is_plain errors field v w :
  (∀ l, v ≠ PList l) →
  verify_field errors (field, Assert (FormAssertSpec_init v None)) w
  = verify_field errors (field, Plain v) w.
Proof.
  intros Hv. unfold Helpers.verify_field, FormAssertSpec_init.
  cbn [fst snd value_function_name default expected_value].
  assert (Hplain :
    match v with
    | PList spec =>
        foldM (verify_item field spec) errors (seq 0 (length spec))
    | _ =>
        call "get_value" [AStr ("id_" +:+ field)] ≫= λ text,
        mret (if decide (PStr text ≠ v)
              then add_error errors field v (PStr text) else errors)
    end w
    = (call "get_value" [AStr ("id_" +:+ field)] ≫= λ text,
       mret (if decide (PStr text ≠ v)
             then add_error errors field v (PStr text) else errors)) w).
  { destruct v as [s|t|l]; [done..|]. by destruct (Hv l). }
  rewrite Hplain. rewrite !bind_run.
  destruct (call "get_value" [AStr ("id_" +:+ field)] w) as [[text|e] w1];
    [|done].
  unfold Helpers.is_equal. rewrite run_lift_bind.
  destruct (decide (PStr text ≠ v)) as [Hne|Heq].
  - by rewrite bool_decide_eq_false_2.
  - rewrite bool_decide_eq_true_2; [done|]. by destruct (decide (PStr text = v)).
Qed.

(** *** What the helper methods ask of the client *)

Lemma call_log meth args w r w1 :
  call meth args w = (r, w1) → log w1 = log w ++ [Called meth args r].
Proof.
  unfold Helpers.call. destruct (selenium meth args (browser w)) as [r' b].
  by intros [= <- <-].
Qed.

Lemma emits_ret {A} P (a : A) : emits P (mret a : M A).
Proof. intros w. exists []. by rewrite app_nil_r. Qed.

Lemma emits_lift {A} P (r : result A) : emits P (lift r : M A).
Proof. intros w. exists []. by rewrite app_nil_r. Qed.

Lemma emits_raise {A} P e : emits P (raise e : M A).
Proof. intros w. exists []. by rewrite app_nil_r. Qed.

Lemma emits_call (P : event → Prop) meth args :
  (∀ r, P (Called meth args r)) → emits P (call meth args).
Proof.
  intros HP w. exists [Called meth args (call meth args w).1].
  split; [|by repeat constructor].
  destruct (call meth args w) as [r w1] eqn:Hcall. simpl.
  by apply call_log in Hcall.
Qed.

Lemma emits_bind {A B} P (m : M A) (k : A → M B) :
  emits P m → (∀ a, emits P (k a)) → emits P (m ≫= k).
Proof.
  intros Hm Hk w. rewrite bind_run.
  destruct (Hm w) as (t1 & Hl1 & Hf1).
  destruct (m w) as [[a|e] w1]; simpl in *.
  - destruct (Hk a w1) as (t2 & Hl2 & Hf2).
    exists (t1 ++ t2). split; [by rewrite Hl2, Hl1, app_assoc|].
    by apply Forall_app.
  - by exists t1.
Qed.

Lemma emits_foldM {A B} P (body : B → A → M B) l :
  (∀ b x, x ∈ l → emits P (body b x)) → ∀ b, emits P (foldM body b l).
Proof.
  induction l as [|x l IH]; intros Hbody b; simpl.
  - apply emits_ret.
  - apply emits_bind.
    + apply Hbody. by left.
    + intros b'. apply IH. intros b'' y Hy. apply Hbody. by right.
Qed.

(** The calls of [verify_form]: each passes a single locator to
    [get_value], to [get_text] or to the value function named by an
    assertion specification of the form data. *)
Lemma verify_form_calls data :
  emits (reads_for data) (verify_form data).
Proof.
  unfold Helpers.verify_form, Helpers.verify_fields. apply emits_bind.
  - apply emits_foldM. intros errors [field [a|v]] Hin;
      unfold Helpers.verify_field; cbn [fst snd].
    + apply emits_bind.
      * apply emits_call. intros r. simpl. right. right. by exists field, a.
      * intros text. apply emits_bind; [apply emits_lift|].
        intros equal. apply emits_ret.
    + assert (Hscalar :
        emits (reads_for data)
          (call "get_value" [AStr ("id_" +:+ field)] ≫= λ text,
           mret (if decide (PStr text ≠ v)
                 then add_error errors field v (PStr text) else errors))).
      { apply emits_bind; [|intros; apply emits_ret].
        apply emits_call. intros r. simpl. by left. }
      destruct v as [s|t|l]; [done..|].
      apply emits_foldM. intros errs i _. unfold Helpers.verify_item.
      apply emits_bind; [apply emits_lift|]. intros xpath.
      apply emits_bind.
      * apply emits_call. intros r. simpl. right. by left.
      * intros text. apply emits_bind; [apply emits_lift|].
        intros x. apply emits_ret.
  - intros errors. case_decide; [apply emits_raise | apply emits_ret].
Qed.

(** X8.  When every assertion specification of the form data retrieves
    its text with [get_value] or [get_text], as by default, [verify_form]
    only reads: every call it makes passes a single locator to
    [get_value] or to [get_text]; it never types, clicks or sleeps. *)
Theorem verify_form_only_reads data :
  reads_values data →
  emits is_read (verify_form data).
Proof.
  intros Hreads w.
  destruct (verify_form_calls data w) as (t & Hlog & Hall).
  exists t. split; [done|].
  eapply Forall_impl; [exact Hall|].
  intros [meth [|[loc|n] [|? ?]] r|ms]; simpl; try done.
  intros [?|[?|(field & a & Hin & ->)]]; [by left|by right|].
  by eapply Hreads.
Qed.

Lemma verify_item_Ok field spec errors i w errors' w' :
  verify_item field spec errors i w = (Ok errors', w') →
  ∃ text, call "get_text" [AStr (selected_item_xpath field i)] w
          = (Ok text, w').
Proof.
  unfold Helpers.verify_item.
  rewrite selected_item_xpath_format, run_lift_bind, bind_run.
  destruct (call "get_text" [AStr (selected_item_xpath field i)] w)
    as [[text|e] w1]; [|done].
  destruct (spec !! i) as [x|]; [|done].
  rewrite run_lift_bind, run_ret. intros [= _ <-]. by exists text.
Qed.

Lemma verify_items_log field spec k : ∀ i errors w errors' w',
  foldM (verify_item field spec) errors (seq i k) w = (Ok errors', w') →
  ∃ texts,
    length texts = k
    ∧ log w' = log w ++
        zip_with (λ j text,
                    Called "get_text" [AStr (selected_item_xpath field j)]
                      (Ok text))
          (seq i k) texts.
Proof.
  induction k as [|k IH]; intros i errors w errors' w'.
  - simpl. intros [= _ <-]. exists []. by rewrite app_nil_r.
  - change (seq i (S k)) with (i :: seq (S i) k). cbn [foldM].
    rewrite bind_run.
    destruct (verify_item field spec errors i w) as [[e1|e] w1] eqn:Hitem;
      [|done].
    intros Hrest.
    apply verify_item_Ok in Hitem as [text Hcall].
    apply call_log in Hcall.
    destruct (IH _ _ _ _ _ Hrest) as (texts & Hlen & Hlog).
    exists (text :: texts). split; [simpl; lia|].
    rewrite Hlog, Hcall, <- app_assoc. done.
Qed.

(** X9.  For an expected list, [verify_form] asks for the text of exactly
    as many selected items as the list has, at the positions 1, 2, ... in
    this order, and goes on after an item that differs.  Items the page
    shows beyond the expected ones are never looked at; for an empty list
    nothing is asked. *)
Theorem list_field_reads_each_item field spec errors w errors' w' :
  verify_field errors (field, Plain (PList spec)) w = (Ok errors', w') →
  ∃ texts,
    length texts = length spec
    ∧ log w' = log w ++
        zip_with (λ i text,
                    Called "get_text" [AStr (selected_item_xpath field i)]
                      (Ok text))
          (seq 0 (length spec)) texts.
Proof. apply verify_items_log. Qed.

(** X10.  When [fill_fields] returns, it has typed every value once into
    the element [id_<key>], in the order of the items, and has done
    nothing else. *)
Theorem fill_fields_types_each_value data : ∀ w w',
  fill_fields selenium data w = (Ok tt, w') →
  ∃ outs,
    length outs = length data
    ∧ log w' = log w ++
        zip_with (λ kv out,
                    Called "type" [AStr ("id_" +:+ kv.1); AStr kv.2] (Ok out))
          data outs.
Proof.
  unfold fill_fields, for_each.
  induction data as [|kv data IH]; intros w w'.
  - simpl. intros [= <-]. exists []. by rewrite app_nil_r.
  - cbn [foldM]. rewrite !bind_run.
    destruct (call "type" [AStr ("id_" +:+ kv.1); AStr kv.2] w)
      as [[out|e] w1] eqn:Hcall; [|done].
    rewrite run_ret. intros Hrest.
    apply call_log in Hcall.
    destruct (IH _ _ Hrest) as (outs & Hlen & Hlog).
    exists (out :: outs). split; [simpl; lia|].
    rewrite Hlog, Hcall, <- app_assoc. done.
Qed.

(** X11.  [fill_calendar_fields] on a field whose entry has no ["day"]
    opens the date picker of the field and then fails with a [KeyError]:
    no day is clicked and the fields after it are not touched. *)
Theorem fill_calendar_fields_missing_day field entry rest w out w1 :
  entry !! "day" = None →
  call "click"
    [AStr ("//td[@class='" +:+ field
           +:+ "']/span[@class='dtpicker-trigger']")] w
  = (Ok out, w1) →
  fill_calendar_fields selenium ((field, entry) :: rest) w
  = (Raise (OtherError "KeyError" "day"), w1).
Proof.
  intros Hday Hcall. unfold fill_calendar_fields, for_each.
  cbn [foldM fst snd]. apply run_bind_Raise.
  assert (Hfmt : format_named Elements.pages_listing_datepicker
                   [("field", field)]
                 = Ok ("//td[@class='" +:+ field
                       +:+ "']/span[@class='dtpicker-trigger']"))
    by reflexivity.
  rewrite Hfmt, run_lift_bind, (run_bind_Ok _ _ _ _ _ Hcall), Hday.
  done.
Qed.

End HelperExtra.

(** X12.  The locator of the link of a listed object is the locator of
    its row, followed by the path to the second anchor of the header
    cell; both name the row by its position. *)
Theorem listing_href_extends_row position :
  get_listing_object position
  = Ok ("//div[@id='changelist']/form/table/tbody/tr[position()='"
        +:+ str_int position +:+ "']")
  ∧ get_listing_object_href position
    = (λ row, row +:+ "/th/a[position()=2]") <$> get_listing_object position.
Proof.
  unfold get_listing_object, get_listing_object_href.
  generalize (str_int position). intros n.
  assert (Hrow : format_named Elements.pages_listing_object [("position", n)]
                 = Ok ("//div[@id='changelist']/form/table/tbody/tr[position()='"
                       +:+ n +:+ "']")) by reflexivity.
  assert (Hhref :
    format_named Elements.pages_listing_object_href [("position", n)]
    = Ok ("//div[@id='changelist']/form/table/tbody/tr[position()='"
          +:+ n +:+ "']/th/a[position()=2]")) by reflexivity.
  rewrite Hrow, Hhref. split; [done|].
  cbn [fmap result_fmap]. by rewrite !append_assoc.
Qed.

Lemma verify_form_only_reads_witness :
  reads_values Sample.data
  ∧ emits is_read
      (Helpers.verify_form Sample.selenium Sample.strptime Sample.data).
Proof.
  assert (Hreads : reads_values Sample.data).
  { intros field a Hin. unfold Sample.data in Hin.
    cbv [DateTimeAssert_init] in Hin.
    repeat (apply elem_of_cons in Hin as [Hin|Hin];
            [by (discriminate Hin || (injection Hin as _ ->; left))|]).
    by apply elem_of_nil in Hin. }
  split; [exact Hreads|].
  apply (verify_form_only_reads Sample.selenium Sample.strptime Sample.data).
  exact Hreads.
Defined.

Lemma tolerance_decides_witness :
  (Helpers.is_equal Sample.strptime
     (DateTimeAssert Sample.noon "get_value" "%Y-%m-%d %H:%M"
        (timedelta_minutes 1)) "2010-01-01 12:01" = Ok true
   ↔ Z.abs (to_us (DateTime (Date 2010 1 1) 12 1 0 0) - to_us Sample.noon)
     ≤ timedelta_minutes 1)
  ∧ (Helpers.is_equal Sample.strptime
       (DateTimeAssert Sample.noon "get_value" "%Y-%m-%d %H:%M"
          (timedelta_minutes 1)) "2010-01-01 12:01" = Ok false
     ↔ timedelta_minutes 1
       < Z.abs (to_us (DateTime (Date 2010 1 1) 12 1 0 0)
                - to_us Sample.noon)).
Proof.
  apply (tolerance_decides Sample.strptime Sample.noon "get_value"
           "%Y-%m-%d %H:%M" (timedelta_minutes 1) "2010-01-01 12:01"
           (DateTime (Date 2010 1 1) 12 1 0 0));
    reflexivity.
Defined.

Lemma negative_tolerance_never_matches_witness :
  Helpers.is_equal Sample.strptime
    (DateTimeAssert Sample.noon "get_value" "%Y-%m-%d %H:%M"
       (timedelta_seconds (-1))) "2010-01-01 12:00"
  = Ok false.
Proof.
  apply (negative_tolerance_never_matches Sample.strptime Sample.noon
           "get_value" "%Y-%m-%d %H:%M" (timedelta_seconds (-1))
           "2010-01-01 12:00" Sample.noon);
    reflexivity.
Defined.

Lemma default_assert_is_plain_witness :
  Helpers.verify_field Sample.selenium Sample.strptime ∅
    ("title", Assert (FormAssertSpec_init (PStr "Hello") None))
    (Sample.start Sample.page)
  = Helpers.verify_field Sample.selenium Sample.strptime ∅
      ("title", Plain (PStr "Hello")) (Sample.start Sample.page).
Proof.
  apply (default_assert_is_plain Sample.selenium Sample.strptime ∅ "title"
           (PStr "Hello") (Sample.start Sample.page)).
  intros l. discriminate.
Defined.

Lemma list_field_reads_each_item_witness :
  ∃ texts,
    length texts = 3%nat
    ∧ log (Helpers.verify_field Sample.selenium Sample.strptime ∅
             ("tags", Plain (PList ["a"; "b"; "c"]))
             (Sample.start Sample.page)).2
      = [] ++
        zip_with (λ i text,
                    Called "get_text" [AStr (selected_item_xpath "tags" i)]
                      (Ok text))
          (seq 0 3) texts.
Proof.
  apply (list_field_reads_each_item Sample.selenium Sample.strptime "tags"
           ["a"; "b"; "c"] ∅ (Sample.start Sample.page)
           {[ "tags" := {| expected := PList ["a"; "b"; "c"];
                           retrieved := PStr "z" |} ]}).
  vm_compute. reflexivity.
Defined.

Lemma fill_fields_types_each_value_witness :
  ∃ outs,
    length outs = 2%nat
    ∧ log (fill_fields Sample.selenium
             [("title", "Hello"); ("slug", "hello")] (Sample.start ∅)).2
      = [] ++
        zip_with (λ kv out,
                    Called "type" [AStr ("id_" +:+ kv.1); AStr kv.2] (Ok out))
          [("title", "Hello"); ("slug", "hello")] outs.
Proof.
  apply (fill_fields_types_each_value Sample.selenium
           [("title", "Hello"); ("slug", "hello")] (Sample.start ∅)).
  vm_compute. reflexivity.
Defined.

Lemma fill_calendar_fields_missing_day_witness :
  fill_calendar_fields Sample.selenium
    [("publish_from", {[ "month" := 3 ]}); ("publish_to", {[ "day" := 4 ]})]
    (Sample.start ∅)
  = (Raise (OtherError "KeyError" "day"),
     {| browser := ∅;
        log := [ Called "click"
                   [AStr "//td[@class='publish_from']/span[@class='dtpicker-trigger']"]
                   (Ok "") ] |}).
Proof.
  apply (fill_calendar_fields_missing_day Sample.selenium "publish_from"
           {[ "month" := 3 ]} [("publish_to", {[ "day" := 4 ]})]
           (Sample.start ∅) "");
    vm_compute; reflexivity.
Defined.

Lemma is_equal_symmetric_witness :
  Helpers.is_equal Sample.strptime
    (DateTimeAssert Sample.noon "get_value" "%Y-%m-%d %H:%M"
       (timedelta_minutes 1)) "2010-01-01 12:02"
  = Helpers.is_equal Sample.strptime
      (DateTimeAssert (DateTime (Date 2010 1 1) 12 2 0 0) "get_value"
         "%Y-%m-%d %H:%M" (timedelta_minutes 1)) "2010-01-01 12:00".
Proof.
  apply (is_equal_symmetric Sample.strptime Sample.noon
           (DateTime (Date 2010 1 1) 12 2 0 0));
    reflexivity.
Defined.

Lemma is_equal_within_delta_witness :
  Helpers.is_equal Sample.strptime
    (DateTimeAssert_init Sample.noon None None None) "2010-01-01 12:01"
  = Ok (bool_decide
          (Z.abs (to_us (DateTime (Date 2010 1 1) 12 1 0 0)
                  - to_us Sample.noon)
           ≤ default (timedelta_minutes 1) None)).
Proof.
  apply (is_equal_within_delta Sample.strptime Sample.noon None None None
           "2010-01-01 12:01" (DateTime (Date 2010 1 1) 12 1 0 0));
    [reflexivity | reflexivity | reflexivity | discriminate].
Defined.

End HelpersExtra.

(** ** The failure message of [verify_form] *)

Module FormMessage.
Import DatetimeFacts Helpers FormSpec HelpersFacts MessageSpec.

Lemma join_concat sep l : join sep l = String.concat sep l.
Proof.
  induction l as [|x l IH]; [done|].
  destruct l as [|y l]; [done|].
  change (join sep (x :: y :: l)) with (x +:+ sep +:+ join sep (y :: l)).
  change (String.concat sep (x :: y :: l))
    with (x +:+ sep +:+ String.concat sep (y :: l)).
  by rewrite IH.
Qed.

Lemma join_empty_foldr l : join "" l = foldr String.append "" l.
Proof.
  induction l as [|x l IH]; [done|].
  destruct l as [|y l]; [simpl; by rewrite append_nil_r|].
  change (join "" (x :: y :: l)) with (x +:+ "" +:+ join "" (y :: l)).
  rewrite IH. done.
Qed.

Lemma concat_contains sep l x :
  x ∈ l → ∃ pre post, String.concat sep l = pre +:+ x +:+ post.
Proof.
  induction l as [|y l IH]; [by intros ?%elem_of_nil|].
  intros [->|Hin]%elem_of_cons.
  - exists "". destruct l as [|z l].
    + exists "". simpl. by rewrite append_nil_r.
    + by exists (sep +:+ String.concat sep (z :: l)).
  - destruct (IH Hin) as (pre & post & Heq).
    destruct l as [|z l]; [by apply elem_of_nil in Hin|].
    exists (y +:+ sep +:+ pre), post.
    change (String.concat sep (y :: z :: l))
      with (y +:+ sep +:+ String.concat sep (z :: l)).
    by rewrite Heq, !append_assoc.
Qed.

Lemma format_error_line field e text :
  format_error field {| expected := e; retrieved := PStr text |}
  = failure_line field (shown e) text.
Proof.
  unfold format_error, failure_line. cbn [expected retrieved pyval_str].
  destruct e as [s|t|l]; cbn [pyval_str shown]; [done..|].
  by rewrite join_empty_foldr.
Qed.

Section Message.
Context {Browser : Type}.
Variable selenium : string → list arg → Browser → result string * Browser.
Variable strptime : string → string → result datetime.

Lemma field_error_of_mismatch field spec ts m :
  sound_parser strptime →
  (∀ e vfn fmt delta,
     spec = Assert (DateTimeAssert e vfn fmt delta) →
     valid_datetime e = true) →
  field_mismatch strptime spec ts = Ok m →
  ∃ oe,
    field_error strptime spec ts = Ok oe
    ∧ format_error field <$> oe
      = (λ er, failure_line field er.1 er.2) <$> m.
Proof.
  intros Hparser Hexp.
  destruct spec as [a|v]; unfold field_mismatch, FormSpec.field_error.
  - destruct ts as [|text [|? ?]];
      try (intros [= <-]; by exists None).
    destruct a as [e vfn|e vfn fmt delta]; unfold satisfies, is_equal.
    + cbn [mbind result_bind expected_value].
      destruct (decide (e = PStr text)) as [->|Hne].
      * rewrite !bool_decide_eq_true_2 by done. intros [= <-].
        by exists None.
      * rewrite !bool_decide_eq_false_2 by congruence. intros [= <-].
        eexists. split; [done|]. simpl. by rewrite format_error_line.
    + destruct (strptime text fmt) as [t|exn] eqn:Ht; [|done].
      cbn [mbind result_bind expected_value].
      pose proof (datetime_gt_spec t e (Hparser _ _ _ Ht)
                    (Hexp _ _ _ _ eq_refl)) as Hgt.
      assert (Hcmp :
        (if datetime_gt t e then Ok (td_le (datetime_sub t e) delta)
         else Ok (td_le (datetime_sub e t) delta))
        = Ok (bool_decide (Z.abs (to_us t - to_us e) ≤ delta))).
      { unfold datetime_sub, td_le. destruct (datetime_gt t e); f_equal.
        - assert (to_us e < to_us t) by by apply Hgt.
          destruct (Z.leb_spec (to_us t - to_us e) delta);
            [rewrite bool_decide_eq_true_2
            | rewrite bool_decide_eq_false_2]; lia.
        - assert (¬ to_us e < to_us t) by (intros ?%Hgt; done).
          destruct (Z.leb_spec (to_us e - to_us t) delta);
            [rewrite bool_decide_eq_true_2
            | rewrite bool_decide_eq_false_2]; lia. }
      rewrite Hcmp. cbn [mbind result_bind].
      destruct (bool_decide (Z.abs (to_us t - to_us e) ≤ delta));
        intros [= <-]; [by exists None|].
      eexists. split; [done|]. simpl. by rewrite format_error_line.
  - assert (Hscalar : ∀ text,
      (if decide (v = PStr text) then None else Some (shown v, text)) = m →
      format_error field <$>
        (if decide (PStr text ≠ v)
         then Some {| expected := v; retrieved := PStr text |} else None)
      = (λ er, failure_line field er.1 er.2) <$> m).
    { intros text <-. destruct (decide (v = PStr text)) as [->|Hne].
      - by rewrite decide_False by (intros H; by apply H).
      - rewrite decide_True by congruence. simpl.
        by rewrite format_error_line. }
    destruct v as [s|t|l].
    + destruct ts as [|text [|? ?]]; try (intros [= <-]; by exists None).
      intros [= Hm]. eexists. split; [done|]. by apply Hscalar.
    + destruct ts as [|text [|? ?]]; try (intros [= <-]; by exists None).
      intros [= Hm]. eexists. split; [done|]. by apply Hscalar.
    + intros [= <-]. eexists. split; [done|].
      destruct (last (mismatched l ts)) as [text|]; [|done].
      simpl. by rewrite format_error_line.
Qed.

Lemma verdicts_of_judgements data : ∀ texts ms,
  sound_parser strptime → sound_expectations data →
  judgements strptime data texts = Ok ms →
  ∃ vs,
    verdicts strptime data texts = Ok vs
    ∧ (λ fe, format_error fe.1 fe.2) <$> mismatches vs = failed_lines ms.
Proof.
  induction data as [|[field spec] data IH]; intros texts ms Hparser Hexp.
  - simpl. intros [= <-]. by exists [].
  - destruct texts as [|ts texts]; [simpl; intros [= <-]; by exists []|].
    cbn [judgements verdicts fst snd].
    destruct (field_mismatch strptime spec ts) as [m|exn] eqn:Hm; [|done].
    destruct (judgements strptime data texts) as [rest|exn] eqn:Hrest;
      [|done].
    intros [= <-].
    destruct (field_error_of_mismatch field spec ts m Hparser) as
      (oe & Hoe & Hline); [|done|].
    { intros e vfn fmt delta ->. eapply Hexp. by left. }
    destruct (IH texts rest Hparser) as (vs & Hvs & Hlines); [|done|].
    { intros f e vfn fmt delta Hin. eapply Hexp. right. exact Hin. }
    rewrite Hoe, Hvs. cbn [mbind result_bind].
    eexists. split; [done|].
    destruct oe as [en|], m as [[e r]|];
      cbn [fmap option_fmap option_map fst snd] in Hline; try done.
    apply (inj Some) in Hline.
    change (mismatches ((field, Some en) :: vs))
        with ((field, en) :: mismatches vs).
      change (failed_lines ((field, Some (e, r)) :: rest))
        with (failure_line field e r :: failed_lines rest).
      rewrite fmap_cons. cbn [fst snd]. by rewrite Hline, Hlines.
Qed.

(** C2.  When every text is retrieved and every comparison returns,
    [verify_form] raises an [AssertionError] if and only if some field
    mismatches: its text is not the expected value, one of its suggester
    items is not the expected item, or its time is further than the
    tolerance from the expected time.  It raises only after the texts of
    all the fields have been retrieved, and its single message is made of
    the lines of all the mismatching fields, in some order and separated
    by newlines; the line of a field names the field, the value expected
    for it and the value retrieved for it. *)
Theorem verify_form_collects_all_mismatches data w texts w' ms :
  NoDup data.*1 →
  sound_parser strptime → sound_expectations data →
  retrieve_all selenium data w = (Ok texts, w') →
  judgements strptime data texts = Ok ms →
  ∃ lines,
    lines ≡ₚ failed_lines ms
    ∧ verify_form selenium strptime data w =
      (if decide (failed_lines ms = []) then Ok tt
       else Raise (AssertionError (String.concat (String "010" "") lines)),
       w')
    ∧ ∀ field expected retrieved,
        (field, Some (expected, retrieved)) ∈ ms →
        ∃ before after,
          String.concat (String "010" "") lines
          = before +:+ "Form validation for field " +:+ field
            +:+ " was expecting " +:+ expected
            +:+ ", but got " +:+ retrieved +:+ after.
Proof.
  intros Hnd Hparser Hexp Hget Hms.
  destruct (verdicts_of_judgements _ _ _ Hparser Hexp Hms)
    as (vs & Hvs & Hlines).
  destruct (verify_form_outcome selenium strptime _ _ _ _ _ Hnd Hget Hvs)
    as (lines & Hperm & Hrun).
  exists lines. rewrite Hlines in Hperm. split; [done|]. split.
  - rewrite Hrun, join_concat.
    destruct (decide (mismatches vs = [])) as [Hnil|Hne].
    + rewrite Hnil in Hlines. simpl in Hlines.
      by rewrite decide_True by done.
    + rewrite decide_False; [done|]. intros Hnil.
      rewrite Hnil in Hlines. by apply fmap_nil_inv in Hlines.
  - intros field e r Hin.
    assert (failure_line field e r ∈ lines) as Hline.
    { rewrite Hperm. unfold failed_lines. apply list_elem_of_omap.
      by exists (field, Some (e, r)). }
    destruct (concat_contains (String "010" "") _ _ Hline)
      as (pre & post & Heq).
    exists pre, post. rewrite Heq. unfold failure_line.
    by rewrite !append_assoc.
Qed.

End Message.

Lemma sample_parser_sound : sound_parser Sample.strptime.
Proof.
  intros text fmt t. unfold Sample.strptime.
  destruct (decide (fmt = "%Y-%m-%d %H:%M")); [|done].
  destruct (Sample.parse_minutes text) as [t'|]; [|done].
  destruct (valid_datetime t') eqn:Hv; [|done].
  by intros [= <-].
Qed.

Lemma sample_expectations_sound : sound_expectations SampleForm.data.
Proof.
  intros field e vfn fmt delta Hin.
  unfold SampleForm.data in Hin.
  cbv [DateTimeAssert_init FormAssertSpec_init] in Hin.
  repeat (apply elem_of_cons in Hin as [Hin|Hin];
          [by (discriminate Hin || (injection Hin as _ -> _ _ _))|]).
  by apply elem_of_nil in Hin.
Qed.

Lemma verify_form_collects_all_mismatches_witness :
  NoDup SampleForm.data.*1
  ∧ failed_lines SampleForm.judged
    = [ "Form validation for field title was expecting Hello, but got Hullo";
        "Form validation for field tags was expecting abc, but got z";
        "Form validation for field slug was expecting hello, but got hullo";
        "Form validation for field publish_to was expecting 2010-01-01 12:00:00, but got 2010-01-01 12:01" ]
  ∧ ∃ lines,
      lines ≡ₚ failed_lines SampleForm.judged
      ∧ verify_form Sample.selenium Sample.strptime SampleForm.data
          (Sample.start SampleForm.page)
        = (if decide (failed_lines SampleForm.judged = []) then Ok tt
           else Raise (AssertionError
                         (String.concat (String "010" "") lines)),
           (retrieve_all Sample.selenium SampleForm.data
              (Sample.start SampleForm.page)).2)
      ∧ ∀ field expected retrieved,
          (field, Some (expected, retrieved)) ∈ SampleForm.judged →
          ∃ before after,
            String.concat (String "010" "") lines
            = before +:+ "Form validation for field " +:+ field
              +:+ " was expecting " +:+ expected
              +:+ ", but got " +:+ retrieved +:+ after.
Proof.
  assert (Hnd : NoDup SampleForm.data.*1)
    by (apply (bool_decide_unpack _); vm_compute; exact I).
  split; [exact Hnd|]. split; [reflexivity|].
  apply (verify_form_collects_all_mismatches Sample.selenium Sample.strptime
           SampleForm.data (Sample.start SampleForm.page) SampleForm.texts _
           SampleForm.judged Hnd sample_parser_sound
           sample_expectations_sound);
    vm_compute; reflexivity.
Defined.

End FormMessage.
